(** * ollama-discord-bot: the conversation manager and the image pipeline

    A shallow embedding of [bot.py]: the [ConversationManager] class,
    [generate_response] and [generate_image], together with the Python
    operations on parsed JSON values these functions rely on. *)

From stdpp Require Import base option list gmap strings pretty.
From Stdlib Require Import ZArith Lia Ascii.

Local Open Scope Z_scope.
#[local] Set Warnings "-register-all".

(** ** Exceptions and results *)

(** The Python exceptions the modelled code can raise.  All of them derive
    from [Exception], so the [except Exception] clauses catch every one. *)
Inductive exn : Type :=
  | ClientError      (* aiohttp / ollama transport failure *)
  | JSONDecodeError  (* [response.json()] on a body that is not JSON *)
  | KeyError
  | IndexError
  | TypeError
  | ValueError
  | Base64Error.     (* binascii.Error *)

Inductive result (A : Type) : Type :=
  | Ok (a : A)
  | Raise (e : exn).
Arguments Ok {A} a.
Arguments Raise {A} e.

(** ** The conversation store *)

(** One message dict [{"role": role, "content": content}]. *)
Record Exchange : Type := Msg { role : string; content : string }.

(** Python list objects live in an object store and are reached through
    references, so that two names for one list see each other's appends.
    [objects] is the store of list objects, [conversations] the dict
    [self.conversations] from user id to a reference. *)
Record ConversationManager : Type := Manager {
  objects : list (list Exchange);
  conversations : gmap Z nat
}.

(** [ConversationManager.__init__] *)
Definition init : ConversationManager :=
  {| objects := []; conversations := ∅ |}.

Definition deref (st : ConversationManager) (l : nat) : list Exchange :=
  default [] (objects st !! l).

(** A new list object. *)
Definition alloc (st : ConversationManager) (v : list Exchange)
  : nat * ConversationManager :=
  (length (objects st),
   {| objects := objects st ++ [v]; conversations := conversations st |}).

(** [lst.append(x)]: the list object is changed in place. *)
Definition list_append (st : ConversationManager) (l : nat) (x : Exchange)
  : ConversationManager :=
  {| objects := <[l := deref st l ++ [x]]> (objects st);
     conversations := conversations st |}.

(** [self.conversations[user_id] = ref] *)
Definition set_conversation (st : ConversationManager) (user_id : Z) (l : nat)
  : ConversationManager :=
  {| objects := objects st; conversations := <[user_id := l]> (conversations st) |}.

(** [get_conversation]: the stored list object itself is returned, after an
    empty one is stored for a user id that has none. *)
Definition get_conversation (st : ConversationManager) (user_id : Z)
  : nat * ConversationManager :=
  match conversations st !! user_id with
  | Some l => (l, st)
  | None =>
      let '(l, st1) := alloc st [] in
      (l, set_conversation st1 user_id l)
  end.

(** [lst[-10:]] *)
Definition last10 {A : Type} (l : list A) : list A :=
  drop (length l - 10)%nat l.

(** [add_message] *)
Definition add_message (st : ConversationManager) (user_id : Z)
    (role content : string) : ConversationManager :=
  let '(conversation, st1) := get_conversation st user_id in
  let st2 := list_append st1 conversation (Msg role content) in
  let '(sliced, st3) := alloc st2 (last10 (deref st2 conversation)) in
  set_conversation st3 user_id sliced.

(** The [clear] command: [conversations[ctx.author.id] = []]. *)
Definition clear_conversation (st : ConversationManager) (user_id : Z)
  : ConversationManager :=
  let '(l, st1) := alloc st [] in
  set_conversation st1 user_id l.

(** What the store holds for a user id, without the lazy creation. *)
Definition history (st : ConversationManager) (user_id : Z) : list Exchange :=
  match conversations st !! user_id with
  | Some l => deref st l
  | None => []
  end.

(** Every reference held by the dict points into the object store. *)
Definition wf (st : ConversationManager) : Prop :=
  ∀ u l, conversations st !! u = Some l → (l < length (objects st))%nat.

(** ** Rendering the prompt *)

(** [f"{msg['role']}: {msg['content']}"] *)
Definition format_msg (msg : Exchange) : string :=
  role msg +:+ ": " +:+ content msg.

(** [sep.join(parts)] *)
Fixpoint join (sep : string) (parts : list string) : string :=
  match parts with
  | [] => EmptyString
  | [p] => p
  | p :: rest => p +:+ sep +:+ join sep rest
  end.

(** The separator ["\n"] of line 94, one line-feed character. *)
Definition newline : string := String (ascii_of_N 10) EmptyString.

(** Line 94: the prompt built from a conversation. *)
Definition render (conversation : list Exchange) : string :=
  join newline (map format_msg conversation).

(** The two speakers of the specification, and the role each one has in
    the message dicts the code builds (lines 93 and 104). *)
Inductive Speaker : Type := User | Assistant.

Definition speaker_role (s : Speaker) : string :=
  match s with
  | User => "user"
  | Assistant => "assistant"
  end.

(** ** generate_response *)

(** The reply of [ollama_client.generate], a mapping of text fields. *)
Record Ollama : Type := {
  OLLAMA_MODEL : string;
  ollama_generate : string → string → result (gmap string string)
}.

Definition fallback : string :=
  "Sorry, I couldn't generate a response at this time.".

(** [if with_memory and user_id]: [None] and [0] are falsy. *)
Definition memory_user (with_memory : bool) (user_id : option Z) : option Z :=
  if with_memory then
    match user_id with
    | Some u => if decide (u = 0) then None else Some u
    | None => None
    end
  else None.

(** Lines 91-96, up to the [await]: the prompt sent to the model. *)
Definition build_prompt (st : ConversationManager) (prompt : string)
    (with_memory : bool) (user_id : option Z) : string * ConversationManager :=
  match memory_user with_memory user_id with
  | Some u =>
      let '(conversation, st1) := get_conversation st u in
      let st2 := list_append st1 conversation (Msg (speaker_role User) prompt) in
      (render (deref st2 conversation), st2)
  | None => (prompt, st)
  end.

(** Lines 103-109, from the point where the [await] resumes. *)
Definition finish_response (st : ConversationManager)
    (reply : result (gmap string string))
    (with_memory : bool) (user_id : option Z) : string * ConversationManager :=
  match reply with
  | Raise _ => (fallback, st)
  | Ok response =>
      match response !! "response" with
      | None => (fallback, st)   (* KeyError, caught *)
      | Some text =>
          match memory_user with_memory user_id with
          | Some u => (text, add_message st u (speaker_role Assistant) text)
          | None => (text, st)
          end
      end
  end.

Definition generate_response (o : Ollama) (st : ConversationManager)
    (prompt : string) (with_memory : bool) (user_id : option Z)
  : string * ConversationManager :=
  let '(full_prompt, st1) := build_prompt st prompt with_memory user_id in
  finish_response st1 (ollama_generate o (OLLAMA_MODEL o) full_prompt)
    with_memory user_id.

(** ** Parsed JSON and the Python operations on it *)

(** What [response.json()] returns: [None], [bool], [int], [str], [list]
    and [dict] with [str] keys.  A dict is the list of its items, keys
    distinct; numbers are integers (a [float] is outside the model).  A
    [str] is the sequence of its characters, one [ascii] per character,
    whose number is the character's code point: the model holds text of
    code points up to U+00FF, text beyond is outside it. *)
Inductive json : Type :=
  | JNull
  | JBool (b : bool)
  | JNum (n : Z)
  | JStr (s : string)
  | JArr (items : list json)
  | JObj (fields : list (string * json)).

(** [d.get(key)] on the items of a dict. *)
Fixpoint assoc (key : string) (fields : list (string * json)) : option json :=
  match fields with
  | [] => None
  | (k, v) :: rest => if String.eqb key k then Some v else assoc key rest
  end.

(** [bool(x)] *)
Definition py_truthy (x : json) : bool :=
  match x with
  | JNull => false
  | JBool b => b
  | JNum n => negb (n =? 0)
  | JStr s => negb (String.eqb s EmptyString)
  | JArr items => match items with [] => false | _ => true end
  | JObj fields => match fields with [] => false | _ => true end
  end.

(** [x == y]: [True == 1] and [False == 0]; dicts compare without regard
    to the order of their items. *)
Fixpoint py_eq (x y : json) : bool :=
  match x, y with
  | JNull, JNull => true
  | JBool a, JBool b => Bool.eqb a b
  | JBool a, JNum n => (if a then 1 else 0) =? n
  | JNum n, JBool b => n =? (if b then 1 else 0)
  | JNum n, JNum m => n =? m
  | JStr s, JStr t => String.eqb s t
  | JArr xs, JArr ys =>
      (fix all2 (xs ys : list json) : bool :=
         match xs, ys with
         | [], [] => true
         | a :: xs', b :: ys' => py_eq a b && all2 xs' ys'
         | _, _ => false
         end) xs ys
  | JObj fs, JObj gs =>
      (length fs =? length gs)%nat &&
      (fix all (fs : list (string * json)) : bool :=
         match fs with
         | [] => true
         | (k, v) :: fs' =>
             match assoc k gs with
             | Some w => py_eq v w
             | None => false
             end && all fs'
         end) fs
  | _, _ => false
  end.

Fixpoint prefixb (t s : string) : bool :=
  match t, s with
  | EmptyString, _ => true
  | String a t', String b s' => if Ascii.eqb a b then prefixb t' s' else false
  | String _ _, EmptyString => false
  end.

(** [t in s] on two strings. *)
Fixpoint substringb (t s : string) : bool :=
  prefixb t s ||
  match s with
  | EmptyString => false
  | String _ s' => substringb t s'
  end.

(** [x in c] *)
Definition py_in (x c : json) : result bool :=
  match c with
  | JObj fields =>
      match x with
      | JStr key => Ok (bool_decide (is_Some (assoc key fields)))
      | JArr _ | JObj _ => Raise TypeError   (* unhashable *)
      | JNull | JBool _ | JNum _ => Ok false (* every key is a str *)
      end
  | JArr items => Ok (existsb (py_eq x) items)
  | JStr s =>
      match x with
      | JStr t => Ok (substringb t s)
      | _ => Raise TypeError
      end
  | JNull | JBool _ | JNum _ => Raise TypeError  (* not iterable *)
  end.

(** The position a Python index denotes in a sequence of [len] items. *)
Definition py_position (i : Z) (len : nat) : option nat :=
  let j := if i <? 0 then i + Z.of_nat len else i in
  if (0 <=? j) && (j <? Z.of_nat len) then Some (Z.to_nat j) else None.

Fixpoint string_get (n : nat) (s : string) : option ascii :=
  match s, n with
  | EmptyString, _ => None
  | String c _, O => Some c
  | String _ s', S n' => string_get n' s'
  end.

(** [c[k]] *)
Definition py_getitem (c k : json) : result json :=
  let index (i : Z) :=
    match c with
    | JArr items =>
        match py_position i (length items) ≫= (items !!.) with
        | Some v => Ok v
        | None => Raise IndexError
        end
    | JStr s =>
        match py_position i (String.length s) ≫= (λ n, string_get n s) with
        | Some ch => Ok (JStr (String ch EmptyString))
        | None => Raise IndexError
        end
    | _ => Raise TypeError
    end in
  match c with
  | JObj fields =>
      match k with
      | JStr key =>
          match assoc key fields with
          | Some v => Ok v
          | None => Raise KeyError
          end
      | JArr _ | JObj _ => Raise TypeError
      | JNull | JBool _ | JNum _ => Raise KeyError
      end
  | JArr _ | JStr _ =>
      match k with
      | JNum i => index i
      | JBool b => index (if b then 1 else 0)
      | _ => Raise TypeError
      end
  | JNull | JBool _ | JNum _ => Raise TypeError  (* not subscriptable *)
  end.

(** ** Formatting and strings *)

Definition hex_digit (n : Z) : ascii :=
  ascii_of_N (Z.to_N (if n <? 10 then 48 + n else 87 + n)).

(** The code points up to U+00FF that [str.isprintable] rejects: the
    control characters U+0000-001F and U+007F-009F, the no-break space
    U+00A0 and the soft hyphen U+00AD. *)
Definition unprintable (n : Z) : bool :=
  (n <? 32) || ((127 <=? n) && (n <=? 160)) || (n =? 173).

(** One character of [repr(s)] for the chosen quote: the quote and the
    backslash get a backslash, tab, line feed and carriage return their
    letter, every other unprintable character its [\xhh] escape; printable
    characters are kept. *)
Definition repr_char (quote c : ascii) : string :=
  let n := Z.of_N (N_of_ascii c) in
  if Ascii.eqb c quote || Ascii.eqb c "\"%char then String "\"%char (String c EmptyString)
  else if n =? 9 then "\t"
  else if n =? 10 then "\n"
  else if n =? 13 then "\r"
  else if unprintable n then
    String "\"%char (String "x"%char
      (String (hex_digit (n / 16)) (String (hex_digit (n mod 16)) EmptyString)))
  else String c EmptyString.

Fixpoint repr_chars (quote : ascii) (s : string) : string :=
  match s with
  | EmptyString => EmptyString
  | String c s' => repr_char quote c +:+ repr_chars quote s'
  end.

Fixpoint has_char (c : ascii) (s : string) : bool :=
  match s with
  | EmptyString => false
  | String d s' => Ascii.eqb c d || has_char c s'
  end.

Definition dquote : ascii := ascii_of_N 34.

(** [repr(s)] of a [str]: single quotes, unless the string has a single
    quote and no double quote. *)
Definition repr_str (s : string) : string :=
  let quote : ascii :=
    if has_char "'"%char s && negb (has_char dquote s) then dquote else "'"%char in
  String quote (repr_chars quote s) +:+ String quote EmptyString.

(** [repr(x)] *)
Fixpoint py_repr (x : json) : string :=
  match x with
  | JNull => "None"
  | JBool b => if b then "True" else "False"
  | JNum n => pretty n
  | JStr s => repr_str s
  | JArr items => "[" +:+ join ", " (map py_repr items) +:+ "]"
  | JObj fields =>
      "{" +:+ join ", " (map (λ kv, repr_str (fst kv) +:+ ": " +:+ py_repr (snd kv)) fields)
          +:+ "}"
  end.

(** [str(x)], what an f-string puts in place of [{x}]. *)
Definition py_str (x : json) : string :=
  match x with
  | JStr s => s
  | _ => py_repr x
  end.

(** [s.partition(sep)] for a one-character separator, when it occurs. *)
Fixpoint cut (sep : ascii) (s : string) : option (string * string) :=
  match s with
  | EmptyString => None
  | String c s' =>
      if Ascii.eqb c sep then Some (EmptyString, s')
      else
        match cut sep s' with
        | Some (before, after) => Some (String c before, after)
        | None => None
        end
  end.

(** [s.split(sep, 1)] *)
Definition split_once (sep : ascii) (s : string) : list string :=
  match cut sep s with
  | Some (before, after) => [before; after]
  | None => [s]
  end.

(** [parts[i]] on a Python list, for an index that is not negative. *)
Definition list_item {A : Type} (parts : list A) (i : nat) : result A :=
  match parts !! i with
  | Some x => Ok x
  | None => Raise IndexError
  end.

(** ** base64.b64decode *)

(** The value of a character of the base64 alphabet. *)
Definition b64_value (c : ascii) : option Z :=
  let n := Z.of_N (N_of_ascii c) in
  if (65 <=? n) && (n <=? 90) then Some (n - 65)
  else if (97 <=? n) && (n <=? 122) then Some (n - 71)
  else if (48 <=? n) && (n <=? 57) then Some (n + 4)
  else if n =? 43 then Some 62
  else if n =? 47 then Some 63
  else None.

(** [binascii.a2b_base64] without [strict_mode], the decoder under
    [base64.b64decode(s)]: characters outside the alphabet are skipped, a
    complete pad sequence ends the input, leftover characters are an
    error. *)
Fixpoint a2b_base64 (s : string) (quad_pos leftchar pads : Z) (out : list Z)
  : result (list Z) :=
  match s with
  | EmptyString => if quad_pos =? 0 then Ok out else Raise Base64Error
  | String c rest =>
      if Ascii.eqb c "="%char then
        if 2 <=? quad_pos then
          if 4 <=? quad_pos + (pads + 1) then Ok out
          else a2b_base64 rest quad_pos leftchar (pads + 1) out
        else a2b_base64 rest quad_pos leftchar pads out
      else
        match b64_value c with
        | None => a2b_base64 rest quad_pos leftchar pads out
        | Some v =>
            if quad_pos =? 0 then a2b_base64 rest 1 v 0 out
            else if quad_pos =? 1 then
              a2b_base64 rest 2 (Z.land v 15) 0
                (out ++ [Z.land (Z.lor (Z.shiftl leftchar 2) (Z.shiftr v 4)) 255])
            else if quad_pos =? 2 then
              a2b_base64 rest 3 (Z.land v 3) 0
                (out ++ [Z.land (Z.lor (Z.shiftl leftchar 4) (Z.shiftr v 2)) 255])
            else
              a2b_base64 rest 0 0 0
                (out ++ [Z.land (Z.lor (Z.shiftl leftchar 6) v) 255])
        end
  end.

Fixpoint is_ascii (s : string) : bool :=
  match s with
  | EmptyString => true
  | String c s' => (Z.of_N (N_of_ascii c) <? 128) && is_ascii s'
  end.

(** [base64.b64decode(s)] for a [str]: it must be ASCII. *)
Definition b64decode (s : string) : result (list Z) :=
  if is_ascii s then a2b_base64 s 0 0 0 [] else Raise ValueError.

(** ** The image backend and the effects of generate_image *)

(** An aiohttp response: [status], what [await response.json()] gives and
    what [await response.read()] gives. *)
Record response : Type := Response {
  status : Z;
  json_body : result json;
  read_body : result (list Z)
}.

(** The ComfyUI server as the code sees it.  A request either raises or
    yields a response; [http_get] also depends on the moment of the
    request, counted in completed [asyncio.sleep(1)] calls since the
    submission, because the history fills in while the loop waits. *)
Record Backend : Type := {
  COMFYUI_API_URL : string;
  http_post : string → json → result response;
  http_get : nat → string → result response
}.

(** The messages given to [logger.error]. *)
Inductive log_msg : Type :=
  | ErrorGeneratingStatus (st : Z)          (* line 271 *)
  | ErrorGeneratingExn (e : exn)            (* line 274 *)
  | FailedToRetrieve (st : Z)               (* line 260 *)
  | UnexpectedFormat (image_data : json)    (* line 263 *)
  | UnexpectedType (image_data : json).     (* line 266 *)

(** What the function does to the outside, in order.  The [logger.debug]
    calls print nothing at the configured level [INFO] and their arguments
    cannot raise on parsed JSON; they leave no event. *)
Inductive event : Type :=
  | Post (url : string) (body : json)
  | Get (url : string)
  | Sleep (seconds : Z)
  | LogError (msg : log_msg).

(** A computation that may raise and leaves a trace of events. *)
Definition M (A : Type) : Type := result A * list event.

#[global] Instance M_ret : MRet M := λ A a, (Ok a, []).
#[global] Instance M_bind : MBind M := λ A B f m,
  match m with
  | (Ok a, tr) => let '(r, tr') := f a in (r, tr ++ tr')
  | (Raise e, tr) => (Raise e, tr)
  end.

Definition lift {A : Type} (r : result A) : M A := (r, []).
Definition emit (ev : event) : M unit := (Ok tt, [ev]).

(** [async with session.get(url) as r] at moment [k]. *)
Definition session_get (b : Backend) (k : nat) (url : string) : M response :=
  (http_get b k url, [Get url]).

(** [async with session.post(url, json=body) as r] *)
Definition session_post (b : Backend) (url : string) (body : json) : M response :=
  (http_post b url body, [Post url body]).

(** What [generate_image] returns. *)
Inductive py_value : Type :=
  | PyNone
  | BytesIO (data : list Z).

(** A reference [[node, slot]] to an output of another node. *)
Definition link (node : string) (slot : Z) : json := JArr [JStr node; JNum slot].

(** Lines 140-225. *)
Definition workflow (prompt : string) : json :=
  JObj [
    ("3", JObj [
      ("inputs", JObj [
        ("seed", JNum 359819880975166);
        ("steps", JNum 15);
        ("cfg", JNum 1);
        ("sampler_name", JStr "euler");
        ("scheduler", JStr "normal");
        ("denoise", JNum 1);
        ("model", link "4" 0);
        ("positive", link "6" 0);
        ("negative", link "7" 0);
        ("latent_image", link "5" 0)]);
      ("class_type", JStr "KSampler")]);
    ("4", JObj [
      ("inputs", JObj [("ckpt_name", JStr "flux1-dev-fp8.safetensors")]);
      ("class_type", JStr "CheckpointLoaderSimple")]);
    ("5", JObj [
      ("inputs", JObj [("width", JNum 512); ("height", JNum 512); ("batch_size", JNum 1)]);
      ("class_type", JStr "EmptyLatentImage")]);
    ("6", JObj [
      ("inputs", JObj [("text", JStr prompt); ("clip", link "4" 1)]);
      ("class_type", JStr "CLIPTextEncode")]);
    ("7", JObj [
      ("inputs", JObj [("text", JStr "text, watermark"); ("clip", link "4" 1)]);
      ("class_type", JStr "CLIPTextEncode")]);
    ("8", JObj [
      ("inputs", JObj [("samples", link "3" 0); ("vae", link "4" 2)]);
      ("class_type", JStr "VAEDecode")]);
    ("9", JObj [
      ("inputs", JObj [("filename_prefix", JStr "ComfyUI"); ("images", link "8" 0)]);
      ("class_type", JStr "SaveImage")])
  ].

Definition prompt_url (b : Backend) : string := COMFYUI_API_URL b +:+ "/prompt".

Definition history_url (b : Backend) (prompt_id : json) : string :=
  COMFYUI_API_URL b +:+ "/history/" +:+ py_str prompt_id.

Definition view_url (b : Backend) (filename subfolder : json) : string :=
  COMFYUI_API_URL b +:+ "/view?filename=" +:+ py_str filename
    +:+ "&subfolder=" +:+ py_str subfolder.

(** Lines 246-268: from the image data to the returned value. *)
Definition extract_image (b : Backend) (k : nat) (image_data : json) : M py_value :=
  match image_data with
  | JStr s =>
      piece ← lift (list_item (split_once ","%char s) 1);
      data ← lift (b64decode piece);
      mret (BytesIO data)
  | JObj fields =>
      match assoc "filename" fields, assoc "subfolder" fields with
      | Some filename, Some subfolder =>
          img_response ← session_get b k (view_url b filename subfolder);
          if status img_response =? 200 then
            data ← lift (read_body img_response);
            mret (BytesIO data)
          else
            emit (LogError (FailedToRetrieve (status img_response)));;
            mret PyNone
      | _, _ =>
          emit (LogError (UnexpectedFormat image_data));;
          mret PyNone
      end
  | _ =>
      emit (LogError (UnexpectedType image_data));;
      mret PyNone
  end.

(** Lines 235-268, one turn of the loop without its sleep: [Some v] when
    the function returns [v], [None] when control reaches line 269. *)
Definition poll_once (b : Backend) (prompt_id : json) (k : nat) : M (option py_value) :=
  history_response ← session_get b k (history_url b prompt_id);
  if status history_response =? 200 then
    history_data ← lift (json_body history_response);
    found ← lift (py_in prompt_id history_data);
    if found : bool then
      entry ← lift (py_getitem history_data prompt_id);
      output_data ← lift (py_getitem entry (JStr "outputs"));
      if py_truthy output_data then
        has_node ← lift (py_in (JStr "9") output_data);
        if has_node : bool then
          node ← lift (py_getitem output_data (JStr "9"));
          images ← lift (py_getitem node (JStr "images"));
          image_data ← lift (py_getitem images (JNum 0));
          v ← extract_image b k image_data;
          mret (Some v)
        else mret None
      else mret None
    else mret None
  else mret None.

(** Lines 234-269: [while True], cut off after [fuel] turns.  [None] says
    the loop is still running when the fuel is used up. *)
Fixpoint poll_loop (b : Backend) (prompt_id : json) (fuel k : nat)
  : option (result py_value) * list event :=
  match fuel with
  | O => (None, [])
  | S fuel' =>
      match poll_once b prompt_id k with
      | (Raise e, tr) => (Some (Raise e), tr)
      | (Ok (Some v), tr) => (Some (Ok v), tr)
      | (Ok None, tr) =>
          let '(r, tr') := poll_loop b prompt_id fuel' (S k) in
          (r, tr ++ Sleep 1 :: tr')
      end
  end.

(** Lines 229-232: the submission, up to the prompt id. *)
Definition submit (b : Backend) (prompt : string) : M (option json) :=
  resp ← session_post b (prompt_url b) (JObj [("prompt", workflow prompt)]);
  if status resp =? 200 then
    data ← lift (json_body resp);
    prompt_id ← lift (py_getitem data (JStr "prompt_id"));
    mret (Some prompt_id)
  else
    emit (LogError (ErrorGeneratingStatus (status resp)));;
    mret None.

(** [generate_image]: [None] while the loop has not ended within [fuel]
    turns, [Some v] when the call returns [v]. *)
Definition generate_image (b : Backend) (fuel : nat) (prompt : string)
  : option py_value * list event :=
  match submit b prompt with
  | (Raise e, tr) => (Some PyNone, tr ++ [LogError (ErrorGeneratingExn e)])
  | (Ok None, tr) => (Some PyNone, tr)
  | (Ok (Some prompt_id), tr) =>
      match poll_loop b prompt_id fuel 0 with
      | (None, tr') => (None, tr ++ tr')
      | (Some (Ok v), tr') => (Some v, tr ++ tr')
      | (Some (Raise e), tr') =>
          (Some PyNone, tr ++ tr' ++ [LogError (ErrorGeneratingExn e)])
      end
  end.

(** ** Chat turns on the event loop *)

(** A memory-enabled chat turn is a coroutine with one suspension point,
    the [await] of line 101.  The event loop runs one coroutine at a time
    and switches only at an [await]; [add_message] and [get_conversation]
    are plain functions without one. *)
Inductive task : Type :=
  | Start (prompt : string) (user_id : Z)
  | Awaiting (full_prompt : string) (user_id : Z)
  | Finished (answer : string).

(** The exchanges a step appends, kept beside the store as a record of
    what was asked of it. *)
Definition prompt_appends (prompt : string) (user_id : Z) : list Exchange :=
  match memory_user true (Some user_id) with
  | Some _ => [Msg (speaker_role User) prompt]
  | None => []
  end.

Definition reply_appends (reply : result (gmap string string)) (user_id : Z)
  : list Exchange :=
  match reply, memory_user true (Some user_id) with
  | Ok response, Some _ =>
      match response !! "response" with
      | Some text => [Msg (speaker_role Assistant) text]
      | None => []
      end
  | _, _ => []
  end.

(** Run a task up to its next suspension point. *)
Definition resume (o : Ollama) (t : task) (st : ConversationManager)
  : task * ConversationManager * list Exchange :=
  match t with
  | Start prompt u =>
      let '(full_prompt, st1) := build_prompt st prompt true (Some u) in
      (Awaiting full_prompt u, st1, prompt_appends prompt u)
  | Awaiting full_prompt u =>
      let reply := ollama_generate o (OLLAMA_MODEL o) full_prompt in
      let '(answer, st1) := finish_response st reply true (Some u) in
      (Finished answer, st1, reply_appends reply u)
  | Finished answer => (t, st, [])
  end.

(** Two tasks under a schedule: each entry names the task the event loop
    resumes next ([false] the first, [true] the second).  The last
    component collects the appended exchanges in the order they were made. *)
Fixpoint run (o : Ollama) (sched : list bool) (t1 t2 : task)
    (st : ConversationManager) (log : list Exchange)
  : task * task * ConversationManager * list Exchange :=
  match sched with
  | [] => (t1, t2, st, log)
  | false :: sched' =>
      let '(t1', st', a) := resume o t1 st in
      run o sched' t1' t2 st' (log ++ a)
  | true :: sched' =>
      let '(t2', st', a) := resume o t2 st in
      run o sched' t1 t2' st' (log ++ a)
  end.

(** ** The failure kinds of the specification *)

Inductive FailureKind : Type :=
  | BackendUnavailable
  | BackendRejected
  | Timeout
  | MalformedPayload
  | RetrievalFailed.

(** ** Notions used in the statements *)

(** [h] is a tail of [full] that holds at least its newest ten items. *)
Definition covers {A : Type} (h full : list A) : Prop :=
  ∃ k, h = drop k full ∧ (k ≤ length full - 10)%nat.

(** A run of [add_message] calls for one user. *)
Definition add_messages (st : ConversationManager) (u : Z) (ms : list Exchange)
  : ConversationManager :=
  foldl (λ st m, add_message st u (role m) (content m)) st ms.

(** A task that belongs to user [u]. *)
Definition task_user (u : Z) (t : task) : Prop :=
  match t with
  | Start _ u' | Awaiting _ u' => u' = u
  | Finished _ => True
  end.

(** [l] is a merge of [l1] and [l2]: it holds the items of both, each
    list's items in their own order. *)
Inductive merge_of {A : Type} : list A → list A → list A → Prop :=
  | merge_nil : merge_of [] [] []
  | merge_left x l1 l2 l : merge_of l1 l2 l → merge_of (x :: l1) l2 (x :: l)
  | merge_right x l1 l2 l : merge_of l1 l2 l → merge_of l1 (x :: l2) (x :: l).

(** What [generate_response] returns for a reply of the inference call. *)
Definition answer_of (reply : result (gmap string string)) : string :=
  match reply with
  | Ok response => default fallback (response !! "response")
  | Raise _ => fallback
  end.

(** How often a schedule resumes a task. *)
Definition turns_of (who : bool) (sched : list bool) : nat :=
  length (List.filter (Bool.eqb who) sched).

(** The steps a task still has to make. *)
Definition steps_left (t : task) : nat :=
  match t with
  | Start _ _ => 2
  | Awaiting _ _ => 1
  | Finished _ => 0
  end.

(** Where the chat turn of user [u] with prompt [p] stands, and the
    exchanges it has appended so far: nothing before its first step; the
    prompt while it waits for the reply to the text it rendered from the
    history [seen] it found; the prompt and what the reply adds once it is
    finished. *)
Inductive progress (o : Ollama) (p : string) (u : Z) : task → list Exchange → Prop :=
  | progress_start : progress o p u (Start p u) []
  | progress_awaiting seen :
      progress o p u (Awaiting (render (seen ++ [Msg "user" p])) u) [Msg "user" p]
  | progress_finished seen :
      progress o p u
        (Finished (answer_of (ollama_generate o (OLLAMA_MODEL o)
                                (render (seen ++ [Msg "user" p])))))
        (Msg "user" p
           :: reply_appends (ollama_generate o (OLLAMA_MODEL o)
                               (render (seen ++ [Msg "user" p]))) u).

(** ** Concrete stores and inference endpoints used below *)

(** Five complete chat turns. *)
Definition ten_messages : list Exchange :=
  [Msg "user" "q1"; Msg "assistant" "a1"; Msg "user" "q2"; Msg "assistant" "a2";
   Msg "user" "q3"; Msg "assistant" "a3"; Msg "user" "q4"; Msg "assistant" "a4";
   Msg "user" "q5"; Msg "assistant" "a5"].

(** The store after these ten [add_message] calls for user 1. *)
Definition full_store : ConversationManager := add_messages init 1 ten_messages.

(** An inference endpoint that cannot be reached. *)
Definition ollama_down : Ollama :=
  {| OLLAMA_MODEL := "llama3.1"; ollama_generate := λ _ _, Raise ClientError |}.

(** An inference endpoint that answers every prompt with ["ok"]. *)
Definition ollama_ok : Ollama :=
  {| OLLAMA_MODEL := "llama3.1";
     ollama_generate := λ _ _, Ok {[ "response" := "ok" ]} |}.

(** ** Concrete image backends used below *)

(** A history response with status 200 and the given JSON body. *)
Definition ok_json (body : json) : result response :=
  Ok {| status := 200; json_body := Ok body; read_body := Raise ClientError |}.

(** A response with the given status and raw body. *)
Definition raw_response (code : Z) (data : list Z) : result response :=
  Ok {| status := code; json_body := Raise JSONDecodeError; read_body := Ok data |}.

(** The ledger entry [{prompt_id: {"outputs": {"9": {"images": [payload]}}}}]. *)
Definition ledger_with (prompt_id : string) (payload : json) : json :=
  JObj [(prompt_id, JObj [("outputs", JObj [("9", JObj [("images", JArr [payload])])])])].

(** A server that accepts the job as ["abc"], answers the history request
    with [ledger k] at moment [k] and every other request with [other]. *)
Definition backend_of (ledger : nat → json) (other : result response) : Backend :=
  {| COMFYUI_API_URL := "http://127.0.0.1:8188";
     http_post := λ _ _, ok_json (JObj [("prompt_id", JStr "abc")]);
     http_get := λ k url,
       if String.eqb url "http://127.0.0.1:8188/history/abc" then ok_json (ledger k)
       else other |}.

(** The job never shows up in the history. *)
Definition idle_backend : Backend :=
  backend_of (λ _, JObj []) (Raise ClientError).

(** The entry is there from the start, node 9 is not. *)
Definition partial_backend : Backend :=
  backend_of (λ _, JObj [("abc", JObj [("outputs", JObj [("8", JObj [])])])])
    (Raise ClientError).

(** The submission is refused with status 500. *)
Definition rejecting_backend : Backend :=
  {| COMFYUI_API_URL := "http://127.0.0.1:8188";
     http_post := λ _ _, raw_response 500 [];
     http_get := λ _ _, Raise ClientError |}.

(** The output node holds [{"foo": "bar"}]. *)
Definition malformed_backend : Backend :=
  backend_of (λ _, ledger_with "abc" (JObj [("foo", JStr "bar")])) (Raise ClientError).

Definition file_reference : json :=
  JObj [("filename", JStr "a.png"); ("subfolder", JStr "x"); ("type", JStr "output")].

(** The output node appears after two seconds and holds a file
    reference; the view endpoint answers with three bytes. *)
Definition file_backend : Backend :=
  backend_of (λ k, if (k <? 2)%nat then JObj [] else ledger_with "abc" file_reference)
    (raw_response 200 [137; 80; 78]).

(** The same, with a view endpoint that answers 404. *)
Definition missing_file_backend : Backend :=
  backend_of (λ _, ledger_with "abc" file_reference) (raw_response 404 []).

(** The same, with a view endpoint that cannot be reached. *)
Definition unreachable_file_backend : Backend :=
  backend_of (λ _, ledger_with "abc" file_reference) (Raise ClientError).

(** The output node holds an inline data URI. *)
Definition inline_backend : Backend :=
  backend_of (λ _, ledger_with "abc" (JStr "data:image/png;base64,AAAA"))
    (Raise ClientError).

(** A history response that holds no output node 9: its status is not
    200, or the ledger has no entry for the prompt id, or the entry's
    outputs mapping has no key ["9"]. *)
Definition output_missing (prompt_id : string) (r : result response) : bool :=
  match r with
  | Ok resp =>
      if status resp =? 200 then
        match json_body resp with
        | Ok (JObj ledger) =>
            match assoc prompt_id ledger with
            | None => true
            | Some (JObj entry) =>
                match assoc "outputs" entry with
                | Some (JObj outs) => negb (bool_decide (is_Some (assoc "9" outs)))
                | _ => false
                end
            | Some _ => false
            end
        | _ => false
        end
      else true
  | Raise _ => false
  end.

(** The trace of [n] turns of the loop that found nothing. *)
Fixpoint idle_turns (url : string) (n : nat) : list event :=
  match n with
  | O => []
  | S n' => Get url :: Sleep 1 :: idle_turns url n'
  end.

Definition is_log_error (ev : event) : bool :=
  match ev with
  | LogError _ => true
  | _ => false
  end.

(** At moment [k] the history response holds an entry for the prompt id
    whose outputs mapping has the key ["9"], in the terms of the tests the
    code makes. *)
Definition node_present (b : Backend) (prompt_id : json) (k : nat) : Prop :=
  ∃ resp history_data entry outs node,
    http_get b k (history_url b prompt_id) = Ok resp ∧ status resp = 200 ∧
    json_body resp = Ok history_data ∧
    py_in prompt_id history_data = Ok true ∧
    py_getitem history_data prompt_id = Ok entry ∧
    py_getitem entry (JStr "outputs") = Ok (JObj outs) ∧
    assoc "9" outs = Some node.

(** A trace without error messages. *)
Definition quiet (tr : list event) : Prop :=
  Forall (λ ev, is_log_error ev = false) tr.

(** How a finished piece of the function relates to the log: a returned
    [None] comes right after an error message, everything else has logged
    no error so far. *)
Definition logged {A : Type} (is_none : A → bool) (m : result A * list event) : Prop :=
  match m with
  | (Ok v, tr) => if is_none v then ∃ msg, last tr = Some (LogError msg) else quiet tr
  | (Raise _, tr) => quiet tr
  end.

Definition returns_none (v : py_value) : bool :=
  match v with PyNone => true | BytesIO _ => false end.

Definition turn_returns_none (v : option py_value) : bool :=
  match v with Some PyNone => true | _ => false end.

(** ** The commands *)

(** What a command sends to the channel, and what it logs.  Sending is
    taken to succeed: [ctx.send] raising is outside the model. *)
Inductive output : Type :=
  | Send (text : string)                          (* [ctx.send(text)] *)
  | SendFile (data : list Z) (filename : string)  (* [ctx.send(file=...)] *)
  | Reply (text : string)                         (* [message.reply(text)] *)
  | LogListing (e : exn).                         (* line 127 *)

(** [iter(x)]: the items of a list, the keys of a dict, the characters
    of a string. *)
Fixpoint string_chars (s : string) : list json :=
  match s with
  | EmptyString => []
  | String c s' => JStr (String c EmptyString) :: string_chars s'
  end.

Definition py_iter (x : json) : result (list json) :=
  match x with
  | JArr items => Ok items
  | JObj fields => Ok (map (λ kv, JStr (fst kv)) fields)
  | JStr s => Ok (string_chars s)
  | JNull | JBool _ | JNum _ => Raise TypeError
  end.

(** [[model['name'] for model in items]] *)
Fixpoint model_names (items : list json) : result (list json) :=
  match items with
  | [] => Ok []
  | model :: rest =>
      match py_getitem model (JStr "name") with
      | Raise e => Raise e
      | Ok name =>
          match model_names rest with
          | Raise e => Raise e
          | Ok names => Ok (name :: names)
          end
      end
  end.

(** The items of [sep.join(items)] must all be [str]. *)
Fixpoint str_items (items : list json) : result (list string) :=
  match items with
  | [] => Ok []
  | JStr s :: rest =>
      match str_items rest with
      | Raise e => Raise e
      | Ok strs => Ok (s :: strs)
      end
  | _ :: _ => Raise TypeError
  end.

Definition tags_url (api_url : string) : string := api_url +:+ "/api/tags".

(** Lines 121-122, the part that can raise. *)
Definition model_list (response : response) : result string :=
  match json_body response with
  | Raise e => Raise e
  | Ok models =>
      match py_getitem models (JStr "models") with
      | Raise e => Raise e
      | Ok listed =>
          match py_iter listed with
          | Raise e => Raise e
          | Ok items =>
              match model_names items with
              | Raise e => Raise e
              | Ok names =>
                  match str_items names with
                  | Raise e => Raise e
                  | Ok strs => Ok (join newline strs)
                  end
              end
          end
      end
  end.

Definition listing_failed : string :=
  "An error occurred while fetching the model list. Please try again later.".

(** [list_models]: [get] is the request [session.get] makes. *)
Definition list_models (api_url : string) (get : string → result response)
  : list output :=
  match get (tags_url api_url) with
  | Raise e => [LogListing e; Send listing_failed]
  | Ok response =>
      if status response =? 200 then
        match model_list response with
        | Raise e => [LogListing e; Send listing_failed]
        | Ok listed =>
            [Send ("Available models:" +:+ newline +:+ "```" +:+ newline
                     +:+ listed +:+ newline +:+ "```")]
        end
      else
        [Send ("Error: " +:+ pretty (status response)
                 +:+ " - Failed to fetch model list")]
  end.

(** The [chat] command (lines 293-307). *)
Definition chat (o : Ollama) (st : ConversationManager) (author_id : Z)
    (message : string) : list output * ConversationManager :=
  let '(response, st') := generate_response o st message true (Some author_id) in
  ([Send response], st').

(** The [message] command (lines 309-323). *)
Definition message_command (o : Ollama) (st : ConversationManager)
    (message : string) : list output * ConversationManager :=
  let '(response, st') := generate_response o st message false None in
  ([Send response], st').

(** The [clear] command (lines 325-337). *)
Definition clear_command (st : ConversationManager) (author_id : Z)
  : list output * ConversationManager :=
  ([Send "Your conversation history has been cleared."],
   clear_conversation st author_id).

Definition photo_failed : string :=
  "Sorry, I couldn't generate an image at this time.".

(** The [photo] command (lines 339-364), [None] while [generate_image] is
    still polling.  A [BytesIO] object is truthy whatever it holds. *)
Definition photo (b : Backend) (fuel : nat) (prompt : string) : option (list output) :=
  match (generate_image b fuel prompt).1 with
  | None => None
  | Some (BytesIO data) => Some [SendFile data "generated_image.png"]
  | Some PyNone => Some [Send photo_failed]
  end.

(** ** Further notions used in the statements *)

(** No two users share a list object. *)
Definition separated (st : ConversationManager) : Prop :=
  wf st ∧
  ∀ u u' l, conversations st !! u = Some l → conversations st !! u' = Some l → u = u'.

(** The server accepted the job under the id [pid]. *)
Definition accepted (b : Backend) (prompt pid : string) : Prop :=
  ∃ resp data,
    http_post b (prompt_url b) (JObj [("prompt", workflow prompt)]) = Ok resp ∧
    status resp = 200 ∧ json_body resp = Ok data ∧
    py_getitem data (JStr "prompt_id") = Ok (JStr pid).

(** At moment [k] the history holds the output node of the job, and
    [outputs['9']['images'][0]] is [image_data]. *)
Definition ready_at (b : Backend) (pid : string) (k : nat) (image_data : json) : Prop :=
  ∃ resp ledger entry outs node images,
    http_get b k (history_url b (JStr pid)) = Ok resp ∧ status resp = 200 ∧
    json_body resp = Ok (JObj ledger) ∧
    assoc pid ledger = Some (JObj entry) ∧
    assoc "outputs" entry = Some (JObj outs) ∧
    assoc "9" outs = Some node ∧
    py_getitem node (JStr "images") = Ok images ∧
    py_getitem images (JNum 0) = Ok image_data.

Definition is_post (ev : event) : bool :=
  match ev with
  | Post _ _ => true
  | _ => false
  end.

(** A trace without a submission. *)
Definition no_post (tr : list event) : Prop :=
  Forall (λ ev, is_post ev = false) tr.

Definition is_send (out : output) : bool :=
  match out with
  | Send _ => true
  | _ => false
  end.

(** The messages a trace gave to [logger.error], in order. *)
Fixpoint logged_messages (tr : list event) : list log_msg :=
  match tr with
  | [] => []
  | LogError msg :: tr' => msg :: logged_messages tr'
  | _ :: tr' => logged_messages tr'
  end.

(** What a caller and the log together tell about a call. *)
Definition outcome (b : Backend) (fuel : nat) (prompt : string)
  : option py_value * list log_msg :=
  ((generate_image b fuel prompt).1, logged_messages (generate_image b fuel prompt).2).

(** ** More concrete servers *)

(** An inference endpoint whose replies have no [response] field. *)
Definition ollama_busy : Ollama :=
  {| OLLAMA_MODEL := "llama3.1";
     ollama_generate := λ _ _, Ok {[ "error" := "busy" ]} |}.

(** The history request fails at moment 1. *)
Definition flaky_backend : Backend :=
  {| COMFYUI_API_URL := "http://127.0.0.1:8188";
     http_post := λ _ _, ok_json (JObj [("prompt_id", JStr "abc")]);
     http_get := λ k _, if (k <? 1)%nat then ok_json (JObj []) else Raise ClientError |}.

(** The output node holds bare base64 text, without a data-URI header. *)
Definition bare_backend : Backend :=
  backend_of (λ _, ledger_with "abc" (JStr "AAAA")) (Raise ClientError).

(** The submission cannot be sent. *)
Definition offline_backend : Backend :=
  {| COMFYUI_API_URL := "http://127.0.0.1:8188";
     http_post := λ _ _, Raise ClientError;
     http_get := λ _ _, Raise ClientError |}.

(** The tags endpoint lists two models. *)
Definition two_models : string → result response :=
  λ _, ok_json (JObj [("models",
         JArr [JObj [("name", JStr "llama3.1"); ("size", JNum 4)];
               JObj [("name", JStr "mistral")]])]).

(** * Properties *)

(** ** The object store *)

Lemma wf_init : wf init.
Proof. intros u l. unfold init; simpl. rewrite lookup_empty. discriminate. Qed.

Lemma last10_length {A : Type} (l : list A) : (length (last10 l) ≤ 10)%nat.
Proof. unfold last10. rewrite length_drop. lia. Qed.

Lemma last10_short {A : Type} (l : list A) : (length l ≤ 10)%nat → last10 l = l.
Proof.
  intros H. unfold last10.
  replace (length l - 10)%nat with 0%nat by lia. apply drop_0.
Qed.

Lemma deref_alloc_old st v l :
  (l < length (objects st))%nat → deref (alloc st v).2 l = deref st l.
Proof. intros H. unfold deref, alloc; simpl. by rewrite lookup_app_l. Qed.

Lemma deref_alloc_new st v : deref (alloc st v).2 (alloc st v).1 = v.
Proof.
  unfold deref, alloc; simpl.
  rewrite lookup_app_r by lia. by rewrite Nat.sub_diag.
Qed.

Lemma history_set st u l : history (set_conversation st u l) u = deref st l.
Proof. unfold history, set_conversation; simpl. by rewrite lookup_insert_eq. Qed.

Lemma history_set_ne st u u' l :
  u ≠ u' → history (set_conversation st u l) u' = history st u'.
Proof.
  intros H. unfold history, set_conversation; simpl.
  by rewrite lookup_insert_ne.
Qed.

Lemma wf_set st u l :
  wf st → (l < length (objects st))%nat → wf (set_conversation st u l).
Proof.
  intros Hwf Hl u' l'. unfold set_conversation; simpl.
  rewrite lookup_insert. case_decide; [intros [= <-]; done | apply Hwf].
Qed.

Lemma wf_alloc st v : wf st → wf (alloc st v).2.
Proof.
  intros Hwf u l Hu. unfold alloc in *; simpl in *.
  rewrite length_app. specialize (Hwf u l Hu). lia.
Qed.

Lemma wf_list_append st l x : wf st → wf (list_append st l x).
Proof.
  intros Hwf u l' Hu. unfold list_append in *; simpl in *.
  rewrite length_insert. by apply (Hwf u).
Qed.

Lemma deref_list_append st l x :
  (l < length (objects st))%nat →
  deref (list_append st l x) l = deref st l ++ [x].
Proof.
  intros H. unfold deref at 1, list_append; simpl.
  by rewrite list_lookup_insert_eq.
Qed.

(** [get_conversation] hands out the stored object: the reference it
    returns is the one the dict holds afterwards, and the list it points
    to is the history. *)
Lemma get_conversation_spec st u :
  wf st →
  let '(l, st1) := get_conversation st u in
  wf st1 ∧ conversations st1 !! u = Some l ∧
  (l < length (objects st1))%nat ∧ deref st1 l = history st u.
Proof.
  intros Hwf. unfold get_conversation, history.
  destruct (conversations st !! u) as [l|] eqn:Hu.
  - repeat split; eauto.
  - simpl. repeat split.
    + apply wf_set; [by apply (wf_alloc st []) | simpl; rewrite length_app; simpl; lia].
    + apply lookup_insert_eq.
    + rewrite length_app; simpl; lia.
    + apply (deref_alloc_new st []).
Qed.

(** An append through the reference is seen by the store. *)
Lemma append_in_place st u x :
  wf st →
  let '(l, st1) := get_conversation st u in
  let st2 := list_append st1 l x in
  wf st2 ∧ conversations st2 !! u = Some l ∧
  (l < length (objects st2))%nat ∧ history st2 u = history st u ++ [x].
Proof.
  intros Hwf. pose proof (get_conversation_spec st u Hwf) as H.
  destruct (get_conversation st u) as [l st1]. destruct H as (Hwf1 & Hl & Hlt & Hd).
  simpl. repeat split.
  - by apply wf_list_append.
  - done.
  - unfold list_append; simpl. by rewrite length_insert.
  - unfold history. replace (conversations (list_append st1 l x) !! u) with (Some l).
    rewrite deref_list_append by done. by rewrite Hd.
Qed.

Lemma add_message_spec st u r c :
  wf st →
  wf (add_message st u r c) ∧
  history (add_message st u r c) u = last10 (history st u ++ [Msg r c]).
Proof.
  intros Hwf. unfold add_message.
  pose proof (append_in_place st u (Msg r c) Hwf) as H.
  destruct (get_conversation st u) as [l st1]. simpl in H.
  destruct H as (Hwf2 & Hl & Hlt & Hh).
  set (st2 := list_append st1 l (Msg r c)) in *.
  assert (deref st2 l = history st u ++ [Msg r c]) as Hd.
  { rewrite <- Hh. unfold history. subst st2; simpl. by rewrite Hl. }
  change (wf (set_conversation (alloc st2 (last10 (deref st2 l))).2 u
                (alloc st2 (last10 (deref st2 l))).1) ∧
          history (set_conversation (alloc st2 (last10 (deref st2 l))).2 u
                (alloc st2 (last10 (deref st2 l))).1) u
          = last10 (history st u ++ [Msg r c])).
  split.
  - apply wf_set; [by apply wf_alloc | simpl; rewrite length_app; simpl; lia].
  - rewrite history_set, deref_alloc_new. by rewrite Hd.
Qed.

(** ** Histories as tails of what was appended *)

Lemma covers_refl {A : Type} (h : list A) : covers h h.
Proof. exists 0%nat. split; [by rewrite drop_0 | lia]. Qed.

Lemma covers_snoc {A : Type} (h full : list A) x :
  covers h full → covers (h ++ [x]) (full ++ [x]).
Proof.
  intros (k & -> & Hk). exists k. split.
  - rewrite drop_app_le by lia. done.
  - rewrite length_app; simpl. lia.
Qed.

Lemma covers_last10 {A : Type} (h full : list A) :
  covers h full → covers (last10 h) full.
Proof.
  intros (k & -> & Hk). unfold last10. rewrite drop_drop, length_drop.
  eexists. split; [done | lia].
Qed.

Lemma covers_suffix {A : Type} (h full : list A) :
  covers h full → h `suffix_of` full ∧ (Nat.min 10 (length full) ≤ length h)%nat.
Proof.
  intros (k & -> & Hk). split.
  - apply suffix_drop.
  - rewrite length_drop. lia.
Qed.

Lemma last10_covers {A : Type} (l : list A) : covers (last10 l) l.
Proof. apply covers_last10, covers_refl. Qed.

(** Truncating on the way does not change what the last truncation keeps. *)
Lemma last10_snoc_last10 {A : Type} (l : list A) x :
  last10 (last10 l ++ [x]) = last10 (l ++ [x]).
Proof.
  unfold last10. rewrite !length_app, length_drop; simpl.
  destruct (decide (length l ≤ 10)%nat) as [H|H].
  - replace (length l - 10)%nat with 0%nat by lia. by rewrite drop_0, Nat.sub_0_r.
  - rewrite <- (drop_app_le l [x] (length l - 10)) by lia.
    rewrite drop_drop. f_equal. lia.
Qed.

(** ** add_message keeps the newest ten, in order *)

Lemma add_message_length st u r c :
  wf st → (length (history (add_message st u r c) u) ≤ 10)%nat.
Proof.
  intros Hwf. destruct (add_message_spec st u r c Hwf) as [_ ->].
  apply last10_length.
Qed.

Lemma add_messages_spec ms : ∀ st u,
  wf st →
  wf (add_messages st u ms) ∧
  history (add_messages st u ms) u =
    match ms with [] => history st u | _ => last10 (history st u ++ ms) end.
Proof.
  induction ms as [|m ms IH] using rev_ind; intros st u Hwf; [done|].
  unfold add_messages in *. rewrite foldl_app; simpl.
  destruct (IH st u Hwf) as [Hwf' Hh].
  destruct (add_message_spec _ u (role m) (content m) Hwf') as [Hwf'' ->].
  split; [done|]. rewrite Hh. destruct m as [r c]; simpl.
  destruct ms as [|m' ms'].
  - simpl. by destruct (history st u).
  - rewrite last10_snoc_last10, <- app_assoc.
    by destruct ((m' :: ms') ++ [Msg r c]) eqn:E; [destruct ms'; discriminate|].
Qed.

Lemma memory_user_true (u : Z) : u ≠ 0 → memory_user true (Some u) = Some u.
Proof. intros H. unfold memory_user. by destruct (decide (u = 0)). Qed.

Lemma memory_user_inv w uid u : memory_user w uid = Some u → uid = Some u ∧ u ≠ 0.
Proof.
  unfold memory_user. destruct w, uid as [v|]; try discriminate.
  destruct (decide (v = 0)); [discriminate|]. by intros [= ->].
Qed.

(** What the first half of a chat turn does to the store: the prompt is
    appended to the stored list itself, without truncation. *)
Lemma build_prompt_spec st prompt u :
  wf st → u ≠ 0 →
  let '(full_prompt, st1) := build_prompt st prompt true (Some u) in
  wf st1 ∧
  history st1 u = history st u ++ [Msg "user" prompt] ∧
  full_prompt = render (history st u ++ [Msg "user" prompt]).
Proof.
  intros Hwf Hu. unfold build_prompt. rewrite memory_user_true by done.
  pose proof (append_in_place st u (Msg "user" prompt) Hwf) as H.
  simpl speaker_role.
  destruct (get_conversation st u) as [l st1]. simpl in H.
  destruct H as (Hwf2 & Hl & Hlt & Hh). repeat split; [done.. |].
  f_equal. rewrite <- Hh. unfold history. simpl. by rewrite Hl.
Qed.

(** The [clear] command leaves an empty history. *)
Lemma clear_conversation_spec st u :
  wf st → wf (clear_conversation st u) ∧ history (clear_conversation st u) u = [].
Proof.
  intros Hwf. unfold clear_conversation.
  change (wf (set_conversation (alloc st []).2 u (alloc st []).1) ∧
          history (set_conversation (alloc st []).2 u (alloc st []).1) u = []).
  split.
  - apply wf_set; [by apply wf_alloc | simpl; rewrite length_app; simpl; lia].
  - by rewrite history_set, deref_alloc_new.
Qed.

(** A chat turn whose inference call answers: prompt and answer are
    appended and the newest ten exchanges are kept. *)
Lemma successful_turn_spec o st prompt u response text :
  wf st → u ≠ 0 →
  ollama_generate o (OLLAMA_MODEL o) (render (history st u ++ [Msg "user" prompt]))
    = Ok response →
  response !! "response" = Some text →
  (generate_response o st prompt true (Some u)).1 = text ∧
  history (generate_response o st prompt true (Some u)).2 u
    = last10 (history st u ++ [Msg "user" prompt; Msg "assistant" text]).
Proof.
  intros Hwf Hu Hgen Htext. unfold generate_response.
  pose proof (build_prompt_spec st prompt u Hwf Hu) as H.
  destruct (build_prompt st prompt true (Some u)) as [full_prompt st1].
  destruct H as (Hwf1 & Hh & ->). rewrite Hgen. simpl. rewrite Htext.
  destruct (decide (u = 0)); [done|]. simpl. split; [done|].
  destruct (add_message_spec st1 u "assistant" text Hwf1) as [_ ->].
  rewrite Hh, <- app_assoc. done.
Qed.

(** ** Claims about the conversation store *)

(** C2, evaluated on the code.  After ten [add_message] calls the history of
    user 1 holds ten exchanges.  A chat turn then appends the prompt through
    the reference [get_conversation] returned, with no truncation: the
    prompt sent to the model is built from eleven exchanges, and when the
    inference call raises the stored history keeps all eleven; a second
    failed turn leaves twelve. *)
Theorem C2_history_exceeds_ten :
  length (history full_store 1) = 10%nat ∧
  length (history (build_prompt full_store "hello" true (Some 1)).2 1) = 11%nat ∧
  length (history (generate_response ollama_down full_store "hello" true (Some 1)).2 1)
    = 11%nat ∧
  length (history
    (generate_response ollama_down
       (generate_response ollama_down full_store "hello" true (Some 1)).2
       "again" true (Some 1)).2 1) = 12%nat.
Proof. repeat split; vm_compute; reflexivity. Qed.

(** C4 as stated fails: the exchanges of a user turn ["hi"] and an assistant
    turn ["yo"] do not render to the capitalised lines. *)
Lemma C4_counterexample :
  render [Msg (speaker_role User) "hi"; Msg (speaker_role Assistant) "yo"]
  ≠ "User: hi
Assistant: yo".
Proof. vm_compute. discriminate. Qed.

(** C4, amended: the speaker labels are the role strings the code stores,
    ["user"] and ["assistant"], so the two-exchange history renders to
    ["user: hi\nassistant: yo"].  In general [render] puts one line
    ["{role}: {content}"] per exchange, in order, with a line feed between
    consecutive lines and none at the end. *)
Theorem C4_render_lines :
  render [Msg (speaker_role User) "hi"; Msg (speaker_role Assistant) "yo"]
  = "user: hi
assistant: yo" ∧
  render [] = EmptyString ∧
  (∀ m, render [m] = role m +:+ ": " +:+ content m) ∧
  (∀ m m' rest,
     render (m :: m' :: rest)
     = (role m +:+ ": " +:+ content m) +:+ newline +:+ render (m' :: rest)).
Proof. repeat split. Qed.

(** C10: when the inference call raises in a memory-enabled turn, the
    fixed apology is returned and the stored history is the old one with
    the user's prompt appended: no truncation, no assistant exchange. *)
Theorem C10_failed_turn_keeps_prompt (o : Ollama) (st : ConversationManager)
    (prompt : string) (u : Z) (e : exn) :
  wf st → u ≠ 0 →
  ollama_generate o (OLLAMA_MODEL o) (render (history st u ++ [Msg "user" prompt]))
    = Raise e →
  (generate_response o st prompt true (Some u)).1
    = "Sorry, I couldn't generate a response at this time." ∧
  history (generate_response o st prompt true (Some u)).2 u
    = history st u ++ [Msg "user" prompt].
Proof.
  intros Hwf Hu Hraise. unfold generate_response.
  pose proof (build_prompt_spec st prompt u Hwf Hu) as H.
  destruct (build_prompt st prompt true (Some u)) as [full_prompt st1].
  destruct H as (_ & Hh & ->). rewrite Hraise. simpl. by split.
Qed.

Lemma C10_witness :
  (generate_response ollama_down full_store "hello" true (Some 1)).1
    = "Sorry, I couldn't generate a response at this time." ∧
  history (generate_response ollama_down full_store "hello" true (Some 1)).2 1
    = history full_store 1 ++ [Msg "user" "hello"].
Proof.
  apply (C10_failed_turn_keeps_prompt ollama_down full_store "hello" 1 ClientError).
  - unfold full_store. apply add_messages_spec, wf_init.
  - lia.
  - reflexivity.
Defined.

(** One step of a task keeps the store well formed and extends what the
    history covers by exactly the exchanges the step appended. *)
Lemma resume_covers o t st u full :
  wf st → task_user u t → covers (history st u) full →
  let '(t', st', a) := resume o t st in
  wf st' ∧ task_user u t' ∧ covers (history st' u) (full ++ a).
Proof.
  intros Hwf Hu Hc. destruct t as [prompt u'|full_prompt u'|answer]; simpl in *.
  - subst u'. unfold prompt_appends.
    destruct (decide (u = 0)) as [->|Hne].
    + simpl. by rewrite app_nil_r.
    + pose proof (build_prompt_spec st prompt u Hwf Hne) as H.
      destruct (build_prompt st prompt true (Some u)) as [fp st1].
      destruct H as (Hwf1 & Hh & _). rewrite memory_user_true by done.
      repeat split; [done|]. rewrite Hh. by apply covers_snoc.
  - subst u'. unfold finish_response, reply_appends.
    destruct (ollama_generate o (OLLAMA_MODEL o) full_prompt) as [response|e].
    + destruct (response !! "response") as [text|].
      * destruct (memory_user true (Some u)) as [v|] eqn:Hm.
        -- apply memory_user_inv in Hm as [[= <-] Hne].
           destruct (add_message_spec st u (speaker_role Assistant) text Hwf) as [Hwf1 Hh].
           repeat split; [done|]. rewrite Hh.
           by apply covers_last10, covers_snoc.
        -- by rewrite app_nil_r.
      * destruct (memory_user true (Some u)); by rewrite app_nil_r.
    + by rewrite app_nil_r.
  - by rewrite app_nil_r.
Qed.

Lemma run_covers o sched : ∀ t1 t2 st log u h0,
  wf st → task_user u t1 → task_user u t2 →
  covers (history st u) (h0 ++ log) →
  let '(_, _, st', log') := run o sched t1 t2 st log in
  wf st' ∧ covers (history st' u) (h0 ++ log').
Proof.
  induction sched as [|[] sched IH]; intros t1 t2 st log u h0 Hwf H1 H2 Hc; simpl.
  - done.
  - pose proof (resume_covers o t2 st u _ Hwf H2 Hc) as H.
    destruct (resume o t2 st) as [[t2' st'] a]. destruct H as (Hwf' & H2' & Hc').
    rewrite <- app_assoc in Hc'. by apply IH.
  - pose proof (resume_covers o t1 st u _ Hwf H1 Hc) as H.
    destruct (resume o t1 st) as [[t1' st'] a]. destruct H as (Hwf' & H1' & Hc').
    rewrite <- app_assoc in Hc'. by apply IH.
Qed.

Lemma merge_only_left {A : Type} (l : list A) : merge_of l [] l.
Proof. induction l; by constructor. Qed.

Lemma merge_only_right {A : Type} (l : list A) : merge_of [] l l.
Proof. induction l; by constructor. Qed.

Lemma merge_app_left {A : Type} (l1 l2 l a : list A) :
  merge_of l1 l2 l → merge_of (l1 ++ a) l2 (l ++ a).
Proof. induction 1; simpl; [apply merge_only_left | by constructor..]. Qed.

Lemma merge_app_right {A : Type} (l1 l2 l a : list A) :
  merge_of l1 l2 l → merge_of l1 (l2 ++ a) (l ++ a).
Proof. induction 1; simpl; [apply merge_only_right | by constructor..]. Qed.

Lemma progress_task_user o p u t l : progress o p u t l → task_user u t.
Proof. by destruct 1. Qed.

(** One step moves a task on by one and adds to its appended exchanges
    exactly what the step reports. *)
Lemma resume_progress o p u t l st :
  wf st → u ≠ 0 → progress o p u t l →
  progress o p u (resume o t st).1.1 (l ++ (resume o t st).2) ∧
  steps_left (resume o t st).1.1 = Nat.pred (steps_left t).
Proof.
  intros Hwf Hu Hp. destruct Hp as [|seen|seen]; simpl.
  - pose proof (build_prompt_spec st p u Hwf Hu) as H.
    destruct (build_prompt st p true (Some u)) as [fp st1].
    destruct H as (_ & _ & ->). simpl. unfold prompt_appends.
    rewrite memory_user_true by done. split; [constructor | done].
  - set (reply := ollama_generate o (OLLAMA_MODEL o) (render (seen ++ [Msg "user" p]))).
    assert ((finish_response st reply true (Some u)).1 = answer_of reply) as Ha.
    { unfold finish_response, answer_of. destruct reply as [response|e]; [|done].
      destruct (response !! "response"); [|done].
      by destruct (memory_user true (Some u)). }
    destruct (finish_response st reply true (Some u)) as [answer st1].
    simpl in *. subst answer. split; [constructor | done].
  - rewrite app_nil_r. split; [constructor | done].
Qed.

Lemma run_progress o p1 p2 u sched : ∀ t1 t2 st log l1 l2 h0,
  wf st → u ≠ 0 →
  progress o p1 u t1 l1 → progress o p2 u t2 l2 → merge_of l1 l2 log →
  covers (history st u) (h0 ++ log) →
  let '(t1', t2', st', log') := run o sched t1 t2 st log in
  ∃ l1' l2',
    progress o p1 u t1' l1' ∧ progress o p2 u t2' l2' ∧ merge_of l1' l2' log' ∧
    covers (history st' u) (h0 ++ log') ∧
    steps_left t1' = (steps_left t1 - turns_of false sched)%nat ∧
    steps_left t2' = (steps_left t2 - turns_of true sched)%nat.
Proof.
  induction sched as [|[] sched IH]; intros t1 t2 st log l1 l2 h0 Hwf Hu H1 H2 Hm Hc.
  - simpl. exists l1, l2. unfold turns_of. simpl. repeat split; try done; lia.
  - simpl.
    pose proof (resume_covers o t2 st u _ Hwf (progress_task_user _ _ _ _ _ H2) Hc) as Hr.
    pose proof (resume_progress o p2 u t2 l2 st Hwf Hu H2) as [Hp Hs].
    destruct (resume o t2 st) as [[t2' st'] a]. simpl in *.
    destruct Hr as (Hwf' & _ & Hc'). rewrite <- app_assoc in Hc'.
    specialize (IH t1 t2' st' (log ++ a) l1 (l2 ++ a) h0 Hwf' Hu H1 Hp
                  (merge_app_right _ _ _ a Hm) Hc').
    destruct (run o sched t1 t2' st' (log ++ a)) as [[[t1f t2f] stf] logf].
    destruct IH as (l1' & l2' & ? & ? & ? & ? & E1 & E2).
    exists l1', l2'. unfold turns_of in *. simpl. repeat split; try done; lia.
  - simpl.
    pose proof (resume_covers o t1 st u _ Hwf (progress_task_user _ _ _ _ _ H1) Hc) as Hr.
    pose proof (resume_progress o p1 u t1 l1 st Hwf Hu H1) as [Hp Hs].
    destruct (resume o t1 st) as [[t1' st'] a]. simpl in *.
    destruct Hr as (Hwf' & _ & Hc'). rewrite <- app_assoc in Hc'.
    specialize (IH t1' t2 st' (log ++ a) (l1 ++ a) l2 h0 Hwf' Hu Hp H2
                  (merge_app_left _ _ _ a Hm) Hc').
    destruct (run o sched t1' t2 st' (log ++ a)) as [[[t1f t2f] stf] logf].
    destruct IH as (l1' & l2' & ? & ? & ? & ? & E1 & E2).
    exists l1', l2'. unfold turns_of in *. simpl. repeat split; try done; lia.
Qed.

Lemma progress_done o p u t l :
  progress o p u t l → steps_left t = 0%nat →
  ∃ seen,
    t = Finished (answer_of (ollama_generate o (OLLAMA_MODEL o)
                               (render (seen ++ [Msg "user" p])))) ∧
    l = Msg "user" p
          :: reply_appends (ollama_generate o (OLLAMA_MODEL o)
                              (render (seen ++ [Msg "user" p]))) u.
Proof. destruct 1 as [|seen|seen]; try discriminate. intros _. by exists seen. Qed.

(** C9: two chat turns of one user, with prompts [p1] and [p2], run as
    tasks of the event loop.  Under every schedule that lets each task
    make its two steps, and whatever the inference calls answer, both tasks
    finish with the answer to the text they sent, and the exchanges
    appended to the store are a merge of the two turns, each turn being the
    user's prompt followed by what its reply adds.  The stored history ends
    as a tail of the old history followed by all these exchanges in the
    order they were made, it holds at least the newest ten of them, and
    all of them when old history and appended exchanges together are at
    most ten: no append is lost. *)
Theorem C9_no_lost_update (o : Ollama) (sched : list bool) (p1 p2 : string)
    (u : Z) (st : ConversationManager) :
  wf st → u ≠ 0 →
  (2 ≤ turns_of false sched)%nat → (2 ≤ turns_of true sched)%nat →
  let '(t1, t2, st', log) := run o sched (Start p1 u) (Start p2 u) st [] in
  ∃ seen1 seen2,
    let reply1 := ollama_generate o (OLLAMA_MODEL o) (render (seen1 ++ [Msg "user" p1])) in
    let reply2 := ollama_generate o (OLLAMA_MODEL o) (render (seen2 ++ [Msg "user" p2])) in
    t1 = Finished (answer_of reply1) ∧ t2 = Finished (answer_of reply2) ∧
    merge_of (Msg "user" p1 :: reply_appends reply1 u)
             (Msg "user" p2 :: reply_appends reply2 u) log ∧
    history st' u `suffix_of` (history st u ++ log) ∧
    (Nat.min 10 (length (history st u ++ log)) ≤ length (history st' u))%nat ∧
    ((length (history st u ++ log) ≤ 10)%nat → history st' u = history st u ++ log).
Proof.
  intros Hwf Hu Hn1 Hn2.
  pose proof (run_progress o p1 p2 u sched (Start p1 u) (Start p2 u) st [] [] []
                (history st u) Hwf Hu (progress_start _ _ _) (progress_start _ _ _)
                merge_nil) as H.
  rewrite app_nil_r in H. specialize (H (covers_refl _)).
  destruct (run o sched (Start p1 u) (Start p2 u) st []) as [[[t1 t2] st'] log].
  destruct H as (l1 & l2 & H1 & H2 & Hm & Hc & E1 & E2). simpl in E1, E2.
  destruct (progress_done _ _ _ _ _ H1 ltac:(lia)) as (seen1 & -> & ->).
  destruct (progress_done _ _ _ _ _ H2 ltac:(lia)) as (seen2 & -> & ->).
  exists seen1, seen2. simpl. repeat split; try done; try by apply covers_suffix.
  intros Hlen. destruct Hc as (k & -> & Hk).
  replace k with 0%nat by lia. apply drop_0.
Qed.

(** ** The polling loop *)

Ltac unfold_M :=
  unfold session_get, session_post, lift, emit, mbind, M_bind, mret, M_ret in *.

(** More fuel does not change a call that has ended. *)
Lemma poll_loop_mono b pid fuel : ∀ k r tr extra,
  poll_loop b pid fuel k = (Some r, tr) →
  poll_loop b pid (fuel + extra) k = (Some r, tr).
Proof.
  induction fuel as [|fuel IH]; intros k r tr extra H; simpl in *; [discriminate|].
  destruct (poll_once b pid k) as [[[v|]|e] tr0]; try done.
  destruct (poll_loop b pid fuel (S k)) as [r' tr'] eqn:E.
  injection H as -> <-. by rewrite (IH _ _ _ extra E).
Qed.

Lemma generate_image_mono b fuel prompt v tr extra :
  generate_image b fuel prompt = (Some v, tr) →
  generate_image b (fuel + extra) prompt = (Some v, tr).
Proof.
  unfold generate_image.
  destruct (submit b prompt) as [[[pid|]|e] tr0]; try done.
  destruct (poll_loop b pid fuel 0) as [[r|] tr1] eqn:E; [|discriminate].
  by rewrite (poll_loop_mono _ _ _ _ _ _ extra E).
Qed.

(** A turn on a response without the output node falls through to the
    sleep. *)
Lemma poll_once_missing b pid k :
  output_missing pid (http_get b k (history_url b (JStr pid))) = true →
  poll_once b (JStr pid) k = (Ok None, [Get (history_url b (JStr pid))]).
Proof.
  unfold output_missing, poll_once. unfold_M.
  destruct (http_get b k (history_url b (JStr pid))) as [resp|e]; [|done].
  destruct (status resp =? 200); [|done]. simpl.
  destruct (json_body resp) as [[| | | | |ledger]|e]; try done.
  simpl. destruct (assoc pid ledger) as [entry|] eqn:Hentry.
  - rewrite bool_decide_eq_true_2 by eauto.
    destruct entry as [| | | | |entry]; try done. simpl.
    destruct (assoc "outputs" entry) as [[| | | | |outs]|]; try done. simpl.
    destruct outs as [|kv outs]; [done|].
    destruct (assoc "9" (kv :: outs)) eqn:H9.
    + rewrite bool_decide_eq_true_2 by eauto. done.
    + rewrite bool_decide_eq_false_2 by (by intros [? ?]). done.
  - rewrite bool_decide_eq_false_2 by (by intros [? ?]). done.
Qed.

(** While every response lacks the output node, the loop only polls and
    sleeps. *)
Lemma poll_loop_idle b pid fuel : ∀ k,
  (∀ j, output_missing pid (http_get b j (history_url b (JStr pid))) = true) →
  poll_loop b (JStr pid) fuel k = (None, idle_turns (history_url b (JStr pid)) fuel).
Proof.
  induction fuel as [|fuel IH]; intros k H; [done|]. simpl.
  rewrite poll_once_missing by done. rewrite IH by done. done.
Qed.

Lemma submit_accepted b prompt resp data pid :
  http_post b (prompt_url b) (JObj [("prompt", workflow prompt)]) = Ok resp →
  status resp = 200 → json_body resp = Ok data →
  py_getitem data (JStr "prompt_id") = Ok pid →
  submit b prompt
  = (Ok (Some pid), [Post (prompt_url b) (JObj [("prompt", workflow prompt)])]).
Proof.
  intros Hpost Hst Hjson Hid. unfold submit. unfold_M.
  rewrite Hpost, Hst. simpl. rewrite Hjson. simpl. by rewrite Hid.
Qed.

Lemma generate_image_idle b prompt resp data pid fuel :
  http_post b (prompt_url b) (JObj [("prompt", workflow prompt)]) = Ok resp →
  status resp = 200 → json_body resp = Ok data →
  py_getitem data (JStr "prompt_id") = Ok (JStr pid) →
  (∀ k, output_missing pid (http_get b k (history_url b (JStr pid))) = true) →
  generate_image b fuel prompt
  = (None, Post (prompt_url b) (JObj [("prompt", workflow prompt)])
             :: idle_turns (history_url b (JStr pid)) fuel).
Proof.
  intros Hpost Hst Hjson Hid Hidle. unfold generate_image.
  rewrite (submit_accepted _ _ _ _ _ Hpost Hst Hjson Hid).
  by rewrite poll_loop_idle.
Qed.

Lemma idle_backend_missing k :
  output_missing "abc" (http_get idle_backend k (history_url idle_backend (JStr "abc")))
  = true.
Proof. reflexivity. Qed.

(** ** Failures and the log *)

Lemma quiet_app tr tr' : quiet tr → quiet tr' → quiet (tr ++ tr').
Proof. apply Forall_app_2. Qed.

Lemma quiet_nil : quiet [].
Proof. constructor. Qed.

Lemma quiet_get url : quiet [Get url].
Proof. by repeat constructor. Qed.

#[local] Hint Resolve quiet_nil quiet_get quiet_app : core.

Lemma last_app_cons {A : Type} (l l' : list A) x : last (l ++ x :: l') = last (x :: l').
Proof. rewrite last_app. by destruct (last (x :: l')) eqn:E; [|apply last_None in E]. Qed.

Lemma extract_image_logged b k image_data :
  logged returns_none (extract_image b k image_data).
Proof.
  unfold extract_image. unfold_M.
  destruct image_data as [| | |s| |fields]; simpl; eauto.
  - destruct (list_item _ _) as [piece|e]; simpl; auto.
    destruct (b64decode piece); simpl; auto.
  - destruct (assoc "filename" fields), (assoc "subfolder" fields); simpl; eauto.
    destruct (http_get b k _) as [resp|e]; simpl; auto.
    destruct (status resp =? 200); simpl; eauto.
    destruct (read_body resp); simpl; auto.
Qed.

Lemma poll_once_logged b pid k : logged turn_returns_none (poll_once b pid k).
Proof.
  unfold poll_once. unfold_M.
  destruct (http_get b k _) as [resp|e]; simpl; auto.
  destruct (status resp =? 200); simpl; auto.
  destruct (json_body resp) as [history_data|e]; simpl; auto.
  destruct (py_in pid history_data) as [[]|e]; simpl; auto.
  destruct (py_getitem history_data pid) as [entry|e]; simpl; auto.
  destruct (py_getitem entry _) as [output_data|e]; simpl; auto.
  destruct (py_truthy output_data); simpl; auto.
  destruct (py_in _ output_data) as [[]|e]; simpl; auto.
  destruct (py_getitem output_data _) as [node|e]; simpl; auto.
  destruct (py_getitem node _) as [images|e]; simpl; auto.
  destruct (py_getitem images _) as [image_data|e]; simpl; auto.
  pose proof (extract_image_logged b k image_data) as H.
  destruct (extract_image b k image_data) as [[[|data]|e] tr]; simpl in *.
  - destruct H as [msg H]. exists msg. rewrite app_nil_r.
    destruct tr; [done|]. by rewrite last_cons, H.
  - rewrite app_nil_r. by constructor.
  - by constructor.
Qed.

Lemma poll_loop_logged b pid fuel : ∀ k,
  match poll_loop b pid fuel k with
  | (Some r, tr) => logged returns_none (r, tr)
  | (None, tr) => quiet tr
  end.
Proof.
  induction fuel as [|fuel IH]; intros k; simpl; [auto|].
  pose proof (poll_once_logged b pid k) as H.
  destruct (poll_once b pid k) as [[[[|data]|]|e] tr]; simpl in *; auto.
  specialize (IH (S k)).
  destruct (poll_loop b pid fuel (S k)) as [[[[|data]|e]|] tr']; simpl in *.
  - destruct IH as [msg IH]. exists msg.
    rewrite last_app_cons, last_cons. by rewrite IH.
  - apply quiet_app; [done|]. by constructor.
  - apply quiet_app; [done|]. by constructor.
  - apply quiet_app; [done|]. by constructor.
Qed.

Lemma submit_logged b prompt :
  logged (λ r : option json, bool_decide (r = None)) (submit b prompt).
Proof.
  unfold submit. unfold_M.
  destruct (http_post b _ _) as [resp|e]; simpl; [|by repeat constructor].
  destruct (status resp =? 200); simpl; [|eauto].
  destruct (json_body resp) as [data|e]; simpl; [|by repeat constructor].
  destruct (py_getitem data _); simpl; by repeat constructor.
Qed.

(** ** Claims about the image pipeline *)

(** C1 as stated fails: with a history that never shows the job, no amount
    of polling makes [generate_image] return anything, a timeout or
    otherwise. *)
Lemma C1_counterexample :
  ¬ ∃ fuel v, (generate_image idle_backend fuel "a cat").1 = Some v.
Proof.
  intros (fuel & v & H).
  rewrite (generate_image_idle idle_backend "a cat" _ _ "abc" fuel
             eq_refl eq_refl eq_refl eq_refl idle_backend_missing) in H.
  discriminate.
Qed.

(** C1, amended: the loop has no timeout.  When the job was accepted and
    every history response lacks output node 9, then after any number of
    turns the call has not returned; it has sent one history request and
    slept one second per turn, and nothing else. *)
Theorem C1_polls_without_timeout (b : Backend) (prompt pid : string)
    (resp : response) (data : json) (fuel : nat) :
  http_post b (prompt_url b) (JObj [("prompt", workflow prompt)]) = Ok resp →
  status resp = 200 → json_body resp = Ok data →
  py_getitem data (JStr "prompt_id") = Ok (JStr pid) →
  (∀ k, output_missing pid (http_get b k (history_url b (JStr pid))) = true) →
  generate_image b fuel prompt
  = (None, Post (prompt_url b) (JObj [("prompt", workflow prompt)])
             :: idle_turns (history_url b (JStr pid)) fuel).
Proof. apply generate_image_idle. Qed.

Lemma C1_witness :
  generate_image idle_backend 3 "a cat"
  = (None, Post (prompt_url idle_backend) (JObj [("prompt", workflow "a cat")])
             :: idle_turns (history_url idle_backend (JStr "abc")) 3).
Proof.
  apply (C1_polls_without_timeout idle_backend "a cat" "abc"
           {| status := 200; json_body := Ok (JObj [("prompt_id", JStr "abc")]);
              read_body := Raise ClientError |}
           (JObj [("prompt_id", JStr "abc")]) 3).
  - reflexivity.
  - reflexivity.
  - reflexivity.
  - reflexivity.
  - intros k. reflexivity.
Defined.



Lemma getitem_str_key c key v :
  py_getitem c (JStr key) = Ok v → ∃ fields, c = JObj fields ∧ assoc key fields = Some v.
Proof.
  destruct c as [| | |s|items|fields]; simpl; try discriminate.
  destruct (assoc key fields) eqn:E; [|discriminate].
  intros [= ->]. eauto.
Qed.

(** A turn that returns has seen the output node. *)
Lemma poll_once_returns b pid k v tr :
  poll_once b pid k = (Ok (Some v), tr) → node_present b pid k.
Proof.
  unfold poll_once, node_present. unfold_M.
  destruct (http_get b k _) as [resp|e]; simpl; [|discriminate].
  destruct (status resp =? 200) eqn:Hst; simpl; [|discriminate].
  destruct (json_body resp) as [history_data|e] eqn:Hjson; simpl; [|discriminate].
  destruct (py_in pid history_data) as [[]|e] eqn:Hin; simpl; try discriminate.
  destruct (py_getitem history_data pid) as [entry|e] eqn:Hentry; simpl; [|discriminate].
  destruct (py_getitem entry _) as [output_data|e] eqn:Hout; simpl; [|discriminate].
  destruct (py_truthy output_data); simpl; [|discriminate].
  destruct (py_in _ output_data) as [[]|e]; simpl; try discriminate.
  destruct (py_getitem output_data _) as [node|e] eqn:Hnode; simpl; [|discriminate].
  intros _. apply getitem_str_key in Hnode as (outs & -> & Hnode).
  exists resp, history_data, entry, outs, node. repeat split; try done.
  by apply Z.eqb_eq.
Qed.

Lemma poll_loop_returns b pid fuel : ∀ k0 v tr,
  poll_loop b pid fuel k0 = (Some (Ok v), tr) →
  ∃ k, (k0 ≤ k < k0 + fuel)%nat ∧ node_present b pid k.
Proof.
  induction fuel as [|fuel IH]; intros k0 v tr; simpl; [discriminate|].
  destruct (poll_once b pid k0) as [[[w|]|e] tr0] eqn:Hturn; [| |discriminate].
  - intros _. exists k0. split; [lia|]. by eapply poll_once_returns.
  - destruct (poll_loop b pid fuel (S k0)) as [r tr1] eqn:Hloop.
    intros [= -> <-]. destruct (IH _ _ _ Hloop) as (k & Hk & Hp).
    exists k. split; [lia | done].
Qed.

(** C5: the loop returns only at a moment when the history response holds
    an entry for the prompt id whose outputs mapping has the key ["9"];
    and on a response where the entry is there but its outputs mapping has
    no key ["9"], the turn ends in the one-second sleep and the loop goes
    on with the next poll. *)
Theorem C5_waits_for_output_node (b : Backend) (prompt_id : string) (fuel k0 : nat) :
  (∀ v tr, poll_loop b (JStr prompt_id) fuel k0 = (Some (Ok v), tr) →
     ∃ k, (k0 ≤ k < k0 + fuel)%nat ∧ node_present b (JStr prompt_id) k) ∧
  (∀ resp ledger entry outs,
     http_get b k0 (history_url b (JStr prompt_id)) = Ok resp →
     status resp = 200 → json_body resp = Ok (JObj ledger) →
     assoc prompt_id ledger = Some (JObj entry) →
     assoc "outputs" entry = Some (JObj outs) → assoc "9" outs = None →
     poll_once b (JStr prompt_id) k0 = (Ok None, [Get (history_url b (JStr prompt_id))]) ∧
     poll_loop b (JStr prompt_id) (S fuel) k0
     = ((poll_loop b (JStr prompt_id) fuel (S k0)).1,
        Get (history_url b (JStr prompt_id)) :: Sleep 1
          :: (poll_loop b (JStr prompt_id) fuel (S k0)).2)).
Proof.
  split; [apply poll_loop_returns|].
  intros resp ledger entry outs Hget Hst Hjson Hentry Houts H9.
  assert (poll_once b (JStr prompt_id) k0
          = (Ok None, [Get (history_url b (JStr prompt_id))])) as Hturn.
  { apply poll_once_missing. unfold output_missing.
    rewrite Hget, Hst, Hjson, Hentry, Houts, H9. done. }
  split; [done|]. simpl. rewrite Hturn.
  by destruct (poll_loop b (JStr prompt_id) fuel (S k0)).
Qed.

Lemma C5_witness :
  (∃ k, (0 ≤ k < 0 + 3)%nat ∧ node_present file_backend (JStr "abc") k) ∧
  poll_once partial_backend (JStr "abc") 0
    = (Ok None, [Get (history_url partial_backend (JStr "abc"))]) ∧
  poll_loop partial_backend (JStr "abc") 3 0
    = ((poll_loop partial_backend (JStr "abc") 2 1).1,
       Get (history_url partial_backend (JStr "abc")) :: Sleep 1
         :: (poll_loop partial_backend (JStr "abc") 2 1).2).
Proof.
  split.
  - apply (proj1 (C5_waits_for_output_node file_backend "abc" 3 0)
             (BytesIO [137; 80; 78])
             (idle_turns (history_url file_backend (JStr "abc")) 2
                ++ [Get (history_url file_backend (JStr "abc"));
                    Get (view_url file_backend (JStr "a.png") (JStr "x"))])).
    reflexivity.
  - apply (proj2 (C5_waits_for_output_node partial_backend "abc" 2 0)
             {| status := 200;
                json_body := Ok (JObj [("abc", JObj [("outputs", JObj [("8", JObj [])])])]);
                read_body := Raise ClientError |}
             [("abc", JObj [("outputs", JObj [("8", JObj [])])])]
             [("outputs", JObj [("8", JObj [])])]
             [("8", JObj [])]); reflexivity.
Defined.

(** ** Extraction *)

Lemma cut_app (sep : ascii) (header rest : string) :
  has_char sep header = false →
  cut sep (header +:+ String sep rest) = Some (header, rest).
Proof.
  induction header as [|c header IH]; simpl.
  - intros _. by rewrite Ascii.eqb_refl.
  - rewrite (Ascii.eqb_sym sep c). destruct (Ascii.eqb c sep); [discriminate|].
    simpl. intros H. by rewrite IH.
Qed.

(** The string branch: everything up to the first comma is dropped and the
    rest is decoded; a string without a comma raises [IndexError]. *)
Lemma extract_inline b k s :
  extract_image b k (JStr s)
  = (match cut ","%char s with
     | Some (_, rest) =>
         match b64decode rest with
         | Ok data => Ok (BytesIO data)
         | Raise e => Raise e
         end
     | None => Raise IndexError
     end, []).
Proof.
  unfold extract_image, split_once. unfold_M.
  destruct (cut ","%char s) as [[header rest]|]; simpl; [|done].
  by destruct (b64decode rest).
Qed.

(** A turn on a response that holds the output node goes on to the
    extraction of [outputs['9']['images'][0]]. *)
Lemma poll_once_ready b pid k resp ledger entry outs node images image_data :
  http_get b k (history_url b (JStr pid)) = Ok resp →
  status resp = 200 → json_body resp = Ok (JObj ledger) →
  assoc pid ledger = Some (JObj entry) →
  assoc "outputs" entry = Some (JObj outs) →
  assoc "9" outs = Some node →
  py_getitem node (JStr "images") = Ok images →
  py_getitem images (JNum 0) = Ok image_data →
  poll_once b (JStr pid) k
  = (match (extract_image b k image_data).1 with
     | Ok v => Ok (Some v)
     | Raise e => Raise e
     end,
     Get (history_url b (JStr pid)) :: (extract_image b k image_data).2).
Proof.
  intros Hget Hst Hjson Hentry Houts H9 Himages Hdata.
  unfold poll_once. unfold_M. rewrite Hget, Hst. simpl.
  rewrite Hjson. simpl. rewrite Hentry. simpl. rewrite Houts.
  assert (py_truthy (JObj outs) = true) as -> by (by destruct outs).
  cbn -[assoc extract_image]. rewrite H9. cbn -[assoc extract_image].
  rewrite Himages. cbn -[assoc extract_image]. rewrite Hdata.
  destruct (extract_image b k image_data) as [[v|e] tr]; simpl; [|done].
  by rewrite app_nil_r.
Qed.


(** The whole call on these three servers. *)
Example generate_image_file :
  generate_image file_backend 3 "a cat"
  = (Some (BytesIO [137; 80; 78]),
     [Post "http://127.0.0.1:8188/prompt" (JObj [("prompt", workflow "a cat")]);
      Get "http://127.0.0.1:8188/history/abc"; Sleep 1;
      Get "http://127.0.0.1:8188/history/abc"; Sleep 1;
      Get "http://127.0.0.1:8188/history/abc";
      Get "http://127.0.0.1:8188/view?filename=a.png&subfolder=x"]).
Proof. reflexivity. Qed.

Example generate_image_missing_file :
  generate_image missing_file_backend 1 "a cat"
  = (Some PyNone,
     [Post "http://127.0.0.1:8188/prompt" (JObj [("prompt", workflow "a cat")]);
      Get "http://127.0.0.1:8188/history/abc";
      Get "http://127.0.0.1:8188/view?filename=a.png&subfolder=x";
      LogError (FailedToRetrieve 404)]).
Proof. reflexivity. Qed.

Example generate_image_unreachable_file :
  generate_image unreachable_file_backend 1 "a cat"
  = (Some PyNone,
     [Post "http://127.0.0.1:8188/prompt" (JObj [("prompt", workflow "a cat")]);
      Get "http://127.0.0.1:8188/history/abc";
      Get "http://127.0.0.1:8188/view?filename=a.png&subfolder=x";
      LogError (ErrorGeneratingExn ClientError)]).
Proof. reflexivity. Qed.

(** C7: the data URI is split at its first comma, the header before it is
    dropped and only ["AAAA"] is decoded, to three zero bytes, which are
    returned.  The same holds for every header without a comma and every
    remainder. *)
Theorem C7_data_uri_header_is_stripped (b : Backend) (k : nat) :
  split_once ","%char "data:image/png;base64,AAAA" = ["data:image/png;base64"; "AAAA"] ∧
  b64decode "AAAA" = Ok [0; 0; 0] ∧
  extract_image b k (JStr "data:image/png;base64,AAAA") = (Ok (BytesIO [0; 0; 0]), []) ∧
  (∀ header rest data,
     has_char ","%char header = false → b64decode rest = Ok data →
     extract_image b k (JStr (header +:+ String ","%char rest)) = (Ok (BytesIO data), [])).
Proof.
  repeat split.
  intros header rest data Hh Hd. rewrite extract_inline, cut_app by done.
  by rewrite Hd.
Qed.

Lemma C7_witness :
  extract_image inline_backend 0 (JStr ("data:image/jpeg;base64" +:+ String ","%char "aGk="))
  = (Ok (BytesIO [104; 105]), []).
Proof.
  apply (proj2 (proj2 (proj2 (C7_data_uri_header_is_stripped inline_backend 0)))
           "data:image/jpeg;base64" "aGk=" [104; 105]); reflexivity.
Defined.

Example generate_image_inline :
  generate_image inline_backend 1 "a cat"
  = (Some (BytesIO [0; 0; 0]),
     [Post "http://127.0.0.1:8188/prompt" (JObj [("prompt", workflow "a cat")]);
      Get "http://127.0.0.1:8188/history/abc"]).
Proof. reflexivity. Qed.

(** C8: image data that is not a string and not a dict with both keys
    [filename] and [subfolder] makes the extraction log an unexpected
    format and return [None], without any request. *)
Theorem C8_unrecognised_payload (b : Backend) (k : nat) (image_data : json) :
  (∀ s, image_data ≠ JStr s) →
  (∀ fields filename subfolder,
     image_data = JObj fields → assoc "filename" fields = Some filename →
     assoc "subfolder" fields = Some subfolder → False) →
  extract_image b k image_data
  = (Ok PyNone,
     [LogError match image_data with
               | JObj _ => UnexpectedFormat image_data
               | _ => UnexpectedType image_data
               end]).
Proof.
  intros Hstr Hdict. unfold extract_image. unfold_M.
  destruct image_data as [| | |s| |fields]; try done.
  - by destruct (Hstr s).
  - destruct (assoc "filename" fields) as [f|] eqn:Hf; [|done].
    destruct (assoc "subfolder" fields) as [s|] eqn:Hs; [|done].
    destruct (Hdict fields f s eq_refl Hf Hs).
Qed.

Lemma C8_witness :
  extract_image malformed_backend 0 (JObj [("foo", JStr "bar")])
  = (Ok PyNone, [LogError (UnexpectedFormat (JObj [("foo", JStr "bar")]))]).
Proof.
  apply (C8_unrecognised_payload malformed_backend 0 (JObj [("foo", JStr "bar")])).
  - discriminate.
  - intros fields filename subfolder [= <-]. discriminate.
Defined.

Example generate_image_malformed :
  generate_image malformed_backend 1 "a cat"
  = (Some PyNone,
     [Post "http://127.0.0.1:8188/prompt" (JObj [("prompt", workflow "a cat")]);
      Get "http://127.0.0.1:8188/history/abc";
      LogError (UnexpectedFormat (JObj [("foo", JStr "bar")]))]).
Proof. reflexivity. Qed.

(** A string that does not decode, or has no comma, raises in the
    extraction; no request is sent. *)
Lemma extract_undecodable b k s :
  (∀ header rest data, cut ","%char s = Some (header, rest) → b64decode rest ≠ Ok data) →
  ∃ e, extract_image b k (JStr s) = (Raise e, []).
Proof.
  intros H. rewrite extract_inline.
  destruct (cut ","%char s) as [[header rest]|] eqn:Hc; [|eauto].
  destruct (b64decode rest) as [data|e] eqn:Hd; [|eauto].
  by destruct (H header rest data).
Qed.

(** ** Two chat turns at once *)

(** Both turns send their prompt before either reply arrives: the second
    prompt is rendered with the first one in it, and all four exchanges
    end up in the history in the order they were appended. *)
Example interleaved_turns :
  let '(t1, t2, st', log) :=
    run ollama_ok [false; true; true; false] (Start "a" 1) (Start "b" 1) init [] in
  (t1, t2, history st' 1, log)
  = (Finished "ok", Finished "ok",
     [Msg "user" "a"; Msg "user" "b"; Msg "assistant" "ok"; Msg "assistant" "ok"],
     [Msg "user" "a"; Msg "user" "b"; Msg "assistant" "ok"; Msg "assistant" "ok"]).
Proof. vm_compute. reflexivity. Qed.

Lemma C9_witness :
  let '(t1, t2, st', log) :=
    run ollama_ok [false; true; true; false] (Start "a" 1) (Start "b" 1) full_store [] in
  ∃ seen1 seen2,
    let reply1 :=
      ollama_generate ollama_ok (OLLAMA_MODEL ollama_ok) (render (seen1 ++ [Msg "user" "a"])) in
    let reply2 :=
      ollama_generate ollama_ok (OLLAMA_MODEL ollama_ok) (render (seen2 ++ [Msg "user" "b"])) in
    t1 = Finished (answer_of reply1) ∧ t2 = Finished (answer_of reply2) ∧
    merge_of (Msg "user" "a" :: reply_appends reply1 1)
             (Msg "user" "b" :: reply_appends reply2 1) log ∧
    history st' 1 `suffix_of` (history full_store 1 ++ log) ∧
    (Nat.min 10 (length (history full_store 1 ++ log)) ≤ length (history st' 1))%nat ∧
    ((length (history full_store 1 ++ log) ≤ 10)%nat →
     history st' 1 = history full_store 1 ++ log).
Proof.
  apply (C9_no_lost_update ollama_ok [false; true; true; false] "a" "b" 1 full_store).
  - unfold full_store. apply add_messages_spec, wf_init.
  - lia.
  - vm_compute. lia.
  - vm_compute. lia.
Defined.

(** * Further properties of the code *)

(** ** The store keeps users apart *)

Lemma history_alloc st v u : wf st → history (alloc st v).2 u = history st u.
Proof.
  intros Hwf. unfold history. simpl.
  destruct (conversations st !! u) as [l|] eqn:Hu; [|done].
  apply deref_alloc_old. by apply (Hwf u).
Qed.

Lemma separated_init : separated init.
Proof.
  split; [apply wf_init|]. intros u u' l. unfold init; simpl.
  rewrite lookup_empty. discriminate.
Qed.

(** Storing a newly made list for a user keeps the users apart. *)
Lemma separated_set_fresh st u v :
  separated st → separated (set_conversation (alloc st v).2 u (alloc st v).1).
Proof.
  intros [Hwf Hinj]. split.
  - apply wf_set; [by apply wf_alloc | simpl; rewrite length_app; simpl; lia].
  - intros u1 u2 l. unfold set_conversation; simpl.
    rewrite !lookup_insert.
    destruct (decide (u = u1)) as [E1|H1], (decide (u = u2)) as [E2|H2].
    + congruence.
    + intros [= <-] H. apply (Hwf u2) in H. lia.
    + intros H [= <-]. apply (Hwf u1) in H. lia.
    + apply Hinj.
Qed.

Lemma separated_list_append st l x : separated st → separated (list_append st l x).
Proof. intros [Hwf Hinj]. split; [by apply wf_list_append | apply Hinj]. Qed.

Lemma get_conversation_separated st u :
  separated st → separated (get_conversation st u).2.
Proof.
  intros Hs. unfold get_conversation.
  destruct (conversations st !! u); [done|]. apply (separated_set_fresh st u []), Hs.
Qed.

Lemma get_conversation_history st u u' :
  wf st → history (get_conversation st u).2 u' = history st u'.
Proof.
  intros Hwf. unfold get_conversation.
  destruct (conversations st !! u) as [l|] eqn:Hu; [done|].
  change (history (set_conversation (alloc st []).2 u (alloc st []).1) u' = history st u').
  destruct (decide (u = u')) as [<-|Hne].
  - rewrite history_set, deref_alloc_new. unfold history. by rewrite Hu.
  - rewrite history_set_ne by done. by apply history_alloc.
Qed.

Lemma list_append_other st u l x u' :
  separated st → conversations st !! u = Some l → u ≠ u' →
  history (list_append st l x) u' = history st u'.
Proof.
  intros [Hwf Hinj] Hl Hne. unfold history, list_append; simpl.
  destruct (conversations st !! u') as [l'|] eqn:Hu'; [|done].
  unfold deref; simpl. rewrite list_lookup_insert_ne; [done|].
  intros <-. by apply Hne, (Hinj u u' l).
Qed.

Lemma append_other st u x u' :
  separated st → u ≠ u' →
  separated (list_append (get_conversation st u).2 (get_conversation st u).1 x) ∧
  history (list_append (get_conversation st u).2 (get_conversation st u).1 x) u'
  = history st u'.
Proof.
  intros Hs Hne. pose proof (get_conversation_separated st u Hs) as Hs1.
  pose proof (get_conversation_spec st u (proj1 Hs)) as H.
  pose proof (get_conversation_history st u u' (proj1 Hs)) as Hh.
  destruct (get_conversation st u) as [l st1]; simpl in *.
  destruct H as (_ & Hl & _ & _). split.
  - by apply separated_list_append.
  - by rewrite (list_append_other st1 u l x u').
Qed.

Lemma append_other_self st u x :
  separated st →
  separated (list_append (get_conversation st u).2 (get_conversation st u).1 x).
Proof.
  intros Hs. apply separated_list_append. by apply get_conversation_separated.
Qed.

Lemma add_message_separated st u r c u' :
  separated st →
  separated (add_message st u r c) ∧
  (u ≠ u' → history (add_message st u r c) u' = history st u').
Proof.
  intros Hs. unfold add_message.
  destruct (get_conversation st u) as [l st1] eqn:Hg.
  set (st2 := list_append st1 l (Msg r c)).
  assert (separated st2 ∧ (u ≠ u' → history st2 u' = history st u')) as [Hs2 Hh2].
  { subst st2. replace l with (get_conversation st u).1 by (by rewrite Hg).
    replace st1 with (get_conversation st u).2 by (by rewrite Hg).
    split; [by apply append_other_self | intros Hne; by apply append_other]. }
  change (separated (set_conversation (alloc st2 (last10 (deref st2 l))).2 u
                       (alloc st2 (last10 (deref st2 l))).1) ∧
          (u ≠ u' → history (set_conversation (alloc st2 (last10 (deref st2 l))).2 u
                       (alloc st2 (last10 (deref st2 l))).1) u' = history st u')).
  split; [by apply separated_set_fresh|].
  intros Hne. rewrite history_set_ne by done.
  rewrite history_alloc by apply Hs2. by apply Hh2.
Qed.

Lemma build_prompt_separated st prompt w uid u' :
  separated st →
  separated (build_prompt st prompt w uid).2 ∧
  (uid ≠ Some u' → history (build_prompt st prompt w uid).2 u' = history st u').
Proof.
  intros Hs. unfold build_prompt.
  destruct (memory_user w uid) as [u|] eqn:Hm; [|done].
  apply memory_user_inv in Hm as [-> Hu].
  pose proof (append_other_self st u (Msg (speaker_role User) prompt) Hs) as H1.
  pose proof (append_other st u (Msg (speaker_role User) prompt) u' Hs) as H2.
  destruct (get_conversation st u) as [l st1]; simpl in *.
  split; [done|]. intros Hne. apply H2. congruence.
Qed.

Lemma finish_response_separated st reply w uid u' :
  separated st →
  separated (finish_response st reply w uid).2 ∧
  (uid ≠ Some u' → history (finish_response st reply w uid).2 u' = history st u').
Proof.
  intros Hs. unfold finish_response.
  destruct reply as [response|e]; [|done].
  destruct (response !! "response") as [text|]; [|done].
  destruct (memory_user w uid) as [u|] eqn:Hm; [|done].
  apply memory_user_inv in Hm as [-> Hu]. simpl.
  destruct (add_message_separated st u (speaker_role Assistant) text u' Hs) as [H1 H2].
  split; [done|]. intros Hne. apply H2. congruence.
Qed.

Lemma generate_response_separated o st prompt w uid u' :
  separated st →
  separated (generate_response o st prompt w uid).2 ∧
  (uid ≠ Some u' → history (generate_response o st prompt w uid).2 u' = history st u').
Proof.
  intros Hs. unfold generate_response.
  destruct (build_prompt_separated st prompt w uid u' Hs) as [H1 H2].
  destruct (build_prompt st prompt w uid) as [full_prompt st1]; simpl in *.
  destruct (finish_response_separated st1
              (ollama_generate o (OLLAMA_MODEL o) full_prompt) w uid u' H1) as [H3 H4].
  split; [done|]. intros Hne. rewrite H4 by done. by apply H2.
Qed.

Lemma full_store_separated : separated full_store.
Proof.
  unfold full_store, add_messages, ten_messages. simpl.
  repeat (apply (λ st r c H, proj1 (add_message_separated st 1 r c 0 H))).
  apply separated_init.
Qed.

Lemma string_app_assoc (a b c : string) : (a +:+ b) +:+ c = a +:+ b +:+ c.
Proof.
  induction a as [|ch a IH]; [reflexivity|].
  change (String ch ((a +:+ b) +:+ c) = String ch (a +:+ b +:+ c)). by rewrite IH.
Qed.

Lemma join_snoc sep (parts : list string) p :
  parts ≠ [] → join sep (parts ++ [p]) = join sep parts +:+ sep +:+ p.
Proof.
  induction parts as [|q parts IH]; [done|]. intros _.
  destruct parts as [|q' parts]; [done|].
  change (q +:+ sep +:+ join sep ((q' :: parts) ++ [p])
          = (q +:+ sep +:+ join sep (q' :: parts)) +:+ sep +:+ p).
  rewrite IH by done. by rewrite !string_app_assoc.
Qed.

Lemma render_snoc h m :
  h ≠ [] → render (h ++ [m]) = render h +:+ newline +:+ format_msg m.
Proof.
  intros Hh. unfold render. rewrite map_app. simpl.
  apply join_snoc. by destruct h.
Qed.

(** X1: one [add_message] call leaves at most ten exchanges, whatever the
    length before (a history that a failed turn left longer is cut back in
    one step); the new exchange is always the last one, and what is kept
    is a tail of the old history followed by it. *)
Theorem X1_add_message_bounded (st : ConversationManager) (u : Z) (r c : string) :
  wf st →
  length (history (add_message st u r c) u)
    = Nat.min 10 (length (history st u) + 1) ∧
  last (history (add_message st u r c) u) = Some (Msg r c) ∧
  history (add_message st u r c) u `suffix_of` (history st u ++ [Msg r c]).
Proof.
  intros Hwf. destruct (add_message_spec st u r c Hwf) as [_ ->].
  unfold last10. rewrite length_app. change (length [Msg r c]) with 1%nat.
  split; [|split].
  - rewrite length_drop, length_app. change (length [Msg r c]) with 1%nat. lia.
  - rewrite drop_app_le by lia. apply last_snoc.
  - apply suffix_drop.
Qed.

Lemma X1_witness :
  length (history (add_message
    (generate_response ollama_down full_store "hello" true (Some 1)).2 1 "user" "x") 1)
    = Nat.min 10
        (length (history (generate_response ollama_down full_store "hello" true (Some 1)).2 1) + 1) ∧
  last (history (add_message
    (generate_response ollama_down full_store "hello" true (Some 1)).2 1 "user" "x") 1)
    = Some (Msg "user" "x") ∧
  history (add_message
    (generate_response ollama_down full_store "hello" true (Some 1)).2 1 "user" "x") 1
    `suffix_of`
    (history (generate_response ollama_down full_store "hello" true (Some 1)).2 1
       ++ [Msg "user" "x"]).
Proof.
  apply (X1_add_message_bounded
           (generate_response ollama_down full_store "hello" true (Some 1)).2 1 "user" "x").
  apply generate_response_separated with (u' := 0), full_store_separated.
Defined.

(** X2: after any non-empty run of [add_message] calls for one user, the
    history is the newest ten of the old history followed by the appended
    exchanges, in their order. *)
Theorem X2_add_messages_keep_newest (st : ConversationManager) (u : Z)
    (ms : list Exchange) :
  wf st → ms ≠ [] →
  history (add_messages st u ms) u = last10 (history st u ++ ms).
Proof.
  intros Hwf Hms. destruct (add_messages_spec ms st u Hwf) as [_ ->].
  by destruct ms.
Qed.

Lemma X2_witness :
  history (add_messages full_store 1 [Msg "user" "q6"; Msg "assistant" "a6"]) 1
  = last10 (history full_store 1 ++ [Msg "user" "q6"; Msg "assistant" "a6"]).
Proof.
  apply (X2_add_messages_keep_newest full_store 1 [Msg "user" "q6"; Msg "assistant" "a6"]).
  - apply full_store_separated.
  - discriminate.
Defined.

(** X3: starting from a store in which no two users share a list object,
    [add_message] and the [clear] command for one user keep it so and
    leave every other user's history as it was. *)
Theorem X3_store_operations_isolated (st : ConversationManager) (u u' : Z)
    (r c : string) :
  separated st → u ≠ u' →
  separated (add_message st u r c) ∧
  history (add_message st u r c) u' = history st u' ∧
  separated (clear_conversation st u) ∧
  history (clear_conversation st u) u' = history st u'.
Proof.
  intros Hs Hne. destruct (add_message_separated st u r c u' Hs) as [H1 H2].
  repeat split; try (by apply H1); [by apply H2 | by apply (separated_set_fresh st u []) | |].
  - intros u1 u2 l. by apply (separated_set_fresh st u []).
  - unfold clear_conversation.
    change (history (set_conversation (alloc st []).2 u (alloc st []).1) u' = history st u').
    rewrite history_set_ne by done. apply history_alloc, Hs.
Qed.

Lemma X3_witness :
  separated (add_message full_store 2 "user" "hi") ∧
  history (add_message full_store 2 "user" "hi") 1 = history full_store 1 ∧
  separated (clear_conversation full_store 2) ∧
  history (clear_conversation full_store 2) 1 = history full_store 1.
Proof.
  apply (X3_store_operations_isolated full_store 2 1 "user" "hi").
  - apply full_store_separated.
  - lia.
Defined.

(** X4: a call of [generate_response] for one user, with or without
    memory and whatever the inference call does, keeps the users apart
    and leaves every other user's history as it was. *)
Theorem X4_generate_response_isolated (o : Ollama) (st : ConversationManager)
    (prompt : string) (with_memory : bool) (user_id : option Z) (u' : Z) :
  separated st → user_id ≠ Some u' →
  separated (generate_response o st prompt with_memory user_id).2 ∧
  history (generate_response o st prompt with_memory user_id).2 u' = history st u'.
Proof.
  intros Hs Hne.
  destruct (generate_response_separated o st prompt with_memory user_id u' Hs) as [H1 H2].
  split; [done | by apply H2].
Qed.

Lemma X4_witness :
  separated (generate_response ollama_ok full_store "hi" true (Some 2)).2 ∧
  history (generate_response ollama_ok full_store "hi" true (Some 2)).2 1
  = history full_store 1.
Proof.
  apply (X4_generate_response_isolated ollama_ok full_store "hi" true (Some 2) 1).
  - apply full_store_separated.
  - discriminate.
Defined.

(** ** References and the store *)

(** X5: the [clear] command answers with its confirmation, leaves the user
    with an empty history that is still stored under the user's id, and the
    next memory-enabled turn sends the model nothing but the new prompt
    line. *)
Theorem X5_clear_then_chat (st : ConversationManager) (u : Z) (prompt : string) :
  wf st → u ≠ 0 →
  (clear_command st u).1 = [Send "Your conversation history has been cleared."] ∧
  history (clear_command st u).2 u = [] ∧
  is_Some (conversations (clear_command st u).2 !! u) ∧
  (build_prompt (clear_command st u).2 prompt true (Some u)).1 = "user: " +:+ prompt.
Proof.
  intros Hwf Hu. unfold clear_command. simpl.
  destruct (clear_conversation_spec st u Hwf) as [Hwf' Hh].
  repeat split; [done | |].
  - unfold clear_conversation. simpl. rewrite lookup_insert_eq. eauto.
  - pose proof (build_prompt_spec (clear_conversation st u) prompt u Hwf' Hu) as H.
    destruct (build_prompt (clear_conversation st u) prompt true (Some u)) as [fp st1].
    destruct H as (_ & _ & ->). by rewrite Hh.
Qed.

Lemma X5_witness :
  (clear_command full_store 1).1 = [Send "Your conversation history has been cleared."] ∧
  history (clear_command full_store 1).2 1 = [] ∧
  is_Some (conversations (clear_command full_store 1).2 !! 1) ∧
  (build_prompt (clear_command full_store 1).2 "hello" true (Some 1)).1
    = "user: " +:+ "hello".
Proof.
  apply (X5_clear_then_chat full_store 1 "hello").
  - apply full_store_separated.
  - lia.
Defined.

(** X6: [add_message] stores a new list object.  A reference to the
    user's list taken before the call no longer reaches the store: an
    append through it leaves the stored history as it is. *)
Theorem X6_stale_reference (st : ConversationManager) (u : Z) (r c : string)
    (x : Exchange) :
  wf st →
  let '(conversation, st1) := get_conversation st u in
  let st2 := add_message st1 u r c in
  history (list_append st2 conversation x) u = history st2 u ∧
  conversations st2 !! u ≠ Some conversation.
Proof.
  intros Hwf. pose proof (get_conversation_spec st u Hwf) as H.
  destruct (get_conversation st u) as [l st1]. destruct H as (Hwf1 & Hl & Hlt & _).
  unfold add_message, get_conversation. rewrite Hl. simpl.
  rewrite lookup_insert_eq, length_insert.
  assert (length (objects st1) ≠ l) as Hne by lia. split; [|congruence].
  unfold history, list_append. simpl. rewrite lookup_insert_eq.
  unfold deref. simpl. by rewrite list_lookup_insert_ne.
Qed.

Lemma X6_witness :
  let '(conversation, st1) := get_conversation full_store 1 in
  let st2 := add_message st1 1 "assistant" "a6" in
  history (list_append st2 conversation (Msg "user" "late")) 1 = history st2 1 ∧
  conversations st2 !! 1 ≠ Some conversation.
Proof.
  apply (X6_stale_reference full_store 1 "assistant" "a6" (Msg "user" "late")).
  apply full_store_separated.
Defined.

(** X7: [get_conversation] creates at most once.  It changes no history,
    the user's id is in the dict afterwards, and a second call returns the
    same list object and changes nothing. *)
Theorem X7_get_conversation_lazy (st : ConversationManager) (u : Z) :
  wf st →
  let '(conversation, st1) := get_conversation st u in
  (∀ u', history st1 u' = history st u') ∧
  conversations st1 !! u = Some conversation ∧
  deref st1 conversation = history st u ∧
  get_conversation st1 u = (conversation, st1).
Proof.
  intros Hwf. pose proof (get_conversation_spec st u Hwf) as H.
  pose proof (λ u', get_conversation_history st u u' Hwf) as Hh.
  destruct (get_conversation st u) as [l st1]. destruct H as (Hwf1 & Hl & Hlt & Hd).
  repeat split; try done. unfold get_conversation. by rewrite Hl.
Qed.

Lemma X7_witness :
  let '(conversation, st1) := get_conversation init 7 in
  (∀ u', history st1 u' = history init u') ∧
  conversations st1 !! 7 = Some conversation ∧
  deref st1 conversation = history init 7 ∧
  get_conversation st1 7 = (conversation, st1).
Proof. apply (X7_get_conversation_lazy init 7), wf_init. Defined.

(** ** generate_response *)

(** X8: without memory ([with_memory] false, no user id, or the user id
    0, which Python takes as false) the store is not touched, the model
    gets the prompt as it is, and the answer is the reply's [response]
    field, or the apology when the call raises or the field is missing. *)
Theorem X8_no_memory (o : Ollama) (st : ConversationManager) (prompt : string)
    (with_memory : bool) (user_id : option Z) :
  with_memory = false ∨ user_id = None ∨ user_id = Some 0 →
  generate_response o st prompt with_memory user_id
  = (match ollama_generate o (OLLAMA_MODEL o) prompt with
     | Ok response => default fallback (response !! "response")
     | Raise _ => fallback
     end, st).
Proof.
  intros H. assert (memory_user with_memory user_id = None) as Hm.
  { destruct H as [->|[->| ->]]; [done | by destruct with_memory..]. }
  unfold generate_response, build_prompt, finish_response. rewrite Hm.
  destruct (ollama_generate o (OLLAMA_MODEL o) prompt) as [response|e]; [|done].
  by destruct (response !! "response").
Qed.

Lemma X8_witness :
  generate_response ollama_ok full_store "hi" true (Some 0)
  = (match ollama_generate ollama_ok (OLLAMA_MODEL ollama_ok) "hi" with
     | Ok response => default fallback (response !! "response")
     | Raise _ => fallback
     end, full_store).
Proof.
  apply (X8_no_memory ollama_ok full_store "hi" true (Some 0)).
  right. right. reflexivity.
Defined.

(** X9: a memory-enabled turn whose inference call answers returns the
    answer and leaves the newest ten of the old history, the prompt and
    the answer, in this order; the stored history is back to at most ten
    exchanges and ends with the assistant's answer. *)
Theorem X9_successful_turn (o : Ollama) (st : ConversationManager)
    (prompt : string) (u : Z) (response : gmap string string) (text : string) :
  wf st → u ≠ 0 →
  ollama_generate o (OLLAMA_MODEL o) (render (history st u ++ [Msg "user" prompt]))
    = Ok response →
  response !! "response" = Some text →
  (generate_response o st prompt true (Some u)).1 = text ∧
  history (generate_response o st prompt true (Some u)).2 u
    = last10 (history st u ++ [Msg "user" prompt; Msg "assistant" text]) ∧
  (length (history (generate_response o st prompt true (Some u)).2 u) ≤ 10)%nat ∧
  last (history (generate_response o st prompt true (Some u)).2 u)
    = Some (Msg "assistant" text).
Proof.
  intros Hwf Hu Hgen Htext.
  destruct (successful_turn_spec o st prompt u response text Hwf Hu Hgen Htext)
    as [-> ->].
  repeat split; [apply last10_length|].
  unfold last10. rewrite length_app.
  change (length [Msg "user" prompt; Msg "assistant" text]) with 2%nat.
  change [Msg "user" prompt; Msg "assistant" text]
    with ([Msg "user" prompt] ++ [Msg "assistant" text]).
  rewrite app_assoc, drop_app_le by (rewrite length_app; simpl; lia).
  apply last_snoc.
Qed.

Lemma X9_witness :
  (generate_response ollama_ok full_store "hi" true (Some 1)).1 = "ok" ∧
  history (generate_response ollama_ok full_store "hi" true (Some 1)).2 1
    = last10 (history full_store 1 ++ [Msg "user" "hi"; Msg "assistant" "ok"]) ∧
  (length (history (generate_response ollama_ok full_store "hi" true (Some 1%Z)).2 1%Z)
     ≤ 10)%nat ∧
  last (history (generate_response ollama_ok full_store "hi" true (Some 1)).2 1)
    = Some (Msg "assistant" "ok").
Proof.
  apply (X9_successful_turn ollama_ok full_store "hi" 1 {[ "response" := "ok" ]} "ok").
  - apply full_store_separated.
  - lia.
  - reflexivity.
  - reflexivity.
Defined.

(** X10: a reply without a [response] field in a memory-enabled turn ends
    like a failed call: the apology is returned, the prompt stays in the
    stored history and no assistant exchange is added. *)
Theorem X10_reply_without_response (o : Ollama) (st : ConversationManager)
    (prompt : string) (u : Z) (response : gmap string string) :
  wf st → u ≠ 0 →
  ollama_generate o (OLLAMA_MODEL o) (render (history st u ++ [Msg "user" prompt]))
    = Ok response →
  response !! "response" = None →
  generate_response o st prompt true (Some u)
    = (fallback, (build_prompt st prompt true (Some u)).2) ∧
  history (generate_response o st prompt true (Some u)).2 u
    = history st u ++ [Msg "user" prompt].
Proof.
  intros Hwf Hu Hgen Hnone. unfold generate_response.
  pose proof (build_prompt_spec st prompt u Hwf Hu) as H.
  destruct (build_prompt st prompt true (Some u)) as [full_prompt st1].
  destruct H as (_ & Hh & ->). rewrite Hgen. simpl. by rewrite Hnone.
Qed.

Lemma X10_witness :
  generate_response ollama_busy init "hi" true (Some 1)
  = (fallback, (build_prompt init "hi" true (Some 1)).2) ∧
  history (generate_response ollama_busy init "hi" true (Some 1)).2 1
  = history init 1 ++ [Msg "user" "hi"].
Proof.
  apply (X10_reply_without_response ollama_busy init "hi" 1 {[ "error" := "busy" ]}).
  - apply wf_init.
  - lia.
  - reflexivity.
  - reflexivity.
Defined.

(** ** The rendered prompt *)

(** X11: the rendered text does not keep exchanges apart.  An exchange
    whose content holds a line feed followed by a line in the
    ["{role}: {content}"] form renders exactly as two exchanges would,
    after any history. *)
Theorem X11_render_not_injective (h : list Exchange) (r c : string) (m : Exchange) :
  render (h ++ [Msg r (c +:+ newline +:+ format_msg m)])
  = render (h ++ [Msg r c; m]).
Proof.
  change [Msg r c; m] with ([Msg r c] ++ [m]). rewrite app_assoc.
  rewrite (render_snoc (h ++ [Msg r c])) by (by destruct h).
  destruct h as [|m0 h].
  - unfold render, format_msg. simpl. by rewrite !string_app_assoc.
  - rewrite !render_snoc by done. unfold format_msg. simpl.
    by rewrite !string_app_assoc.
Qed.

(** X12: in a memory-enabled turn for a user with a stored history, the
    text sent to the model is the rendered history, a line feed and the
    line ["user: {prompt}"]; every stored exchange is sent, also when there
    are more than ten. *)
Theorem X12_prompt_carries_history (st : ConversationManager) (prompt : string) (u : Z) :
  wf st → u ≠ 0 → history st u ≠ [] →
  (build_prompt st prompt true (Some u)).1
  = render (history st u) +:+ newline +:+ "user: " +:+ prompt.
Proof.
  intros Hwf Hu Hh. pose proof (build_prompt_spec st prompt u Hwf Hu) as H.
  destruct (build_prompt st prompt true (Some u)) as [fp st1].
  destruct H as (_ & _ & ->). simpl. by rewrite render_snoc.
Qed.

Lemma X12_witness :
  (build_prompt full_store "hello" true (Some 1)).1
  = render (history full_store 1) +:+ newline +:+ "user: " +:+ "hello".
Proof.
  apply (X12_prompt_carries_history full_store "hello" 1).
  - apply full_store_separated.
  - lia.
  - discriminate.
Defined.

(** ** The submission and the loop, further *)

Lemma submit_rejected b prompt resp :
  http_post b (prompt_url b) (JObj [("prompt", workflow prompt)]) = Ok resp →
  status resp ≠ 200 →
  submit b prompt
  = (Ok None, [Post (prompt_url b) (JObj [("prompt", workflow prompt)]);
               LogError (ErrorGeneratingStatus (status resp))]).
Proof.
  intros Hpost Hst. unfold submit. unfold_M. rewrite Hpost.
  apply Z.eqb_neq in Hst. by rewrite Hst.
Qed.

(** A turn that falls through to the sleep has sent its one request and
    nothing else. *)
Lemma poll_once_none_trace b pid k tr :
  poll_once b pid k = (Ok None, tr) → tr = [Get (history_url b pid)].
Proof.
  unfold poll_once. unfold_M.
  destruct (http_get b k _) as [resp|e]; simpl; [|discriminate].
  destruct (status resp =? 200); simpl; [|by intros [= <-]].
  destruct (json_body resp) as [history_data|e]; simpl; [|discriminate].
  destruct (py_in pid history_data) as [[]|e]; simpl; [|by intros [= <-]|discriminate].
  destruct (py_getitem history_data pid) as [entry|e]; simpl; [|discriminate].
  destruct (py_getitem entry _) as [output_data|e]; simpl; [|discriminate].
  destruct (py_truthy output_data); simpl; [|by intros [= <-]].
  destruct (py_in _ output_data) as [[]|e]; simpl; [|by intros [= <-]|discriminate].
  destruct (py_getitem output_data _) as [node|e]; simpl; [|discriminate].
  destruct (py_getitem node _) as [images|e]; simpl; [|discriminate].
  destruct (py_getitem images _) as [image_data|e]; simpl; [|discriminate].
  destruct (extract_image b k image_data) as [[v|e] tr0]; discriminate.
Qed.

Lemma poll_loop_running b pid fuel : ∀ k tr,
  poll_loop b pid fuel k = (None, tr) → tr = idle_turns (history_url b pid) fuel.
Proof.
  induction fuel as [|fuel IH]; intros k tr; simpl; [by intros [= <-]|].
  destruct (poll_once b pid k) as [[[v|]|e] tr0] eqn:Hturn; [discriminate| |discriminate].
  apply poll_once_none_trace in Hturn as ->.
  destruct (poll_loop b pid fuel (S k)) as [r tr1] eqn:Hloop.
  intros [= -> <-]. by rewrite (IH _ _ Hloop).
Qed.

(** The loop after [n] turns that found nothing. *)
Lemma poll_loop_prefix b pid n : ∀ k fuel,
  (∀ j, (k ≤ j < k + n)%nat →
        output_missing pid (http_get b j (history_url b (JStr pid))) = true) →
  poll_loop b (JStr pid) (n + fuel) k
  = ((poll_loop b (JStr pid) fuel (k + n)).1,
     idle_turns (history_url b (JStr pid)) n ++ (poll_loop b (JStr pid) fuel (k + n)).2).
Proof.
  induction n as [|n IH]; intros k fuel H.
  - simpl. rewrite Nat.add_0_r. by destruct (poll_loop b (JStr pid) fuel k).
  - simpl. rewrite poll_once_missing by (apply H; lia).
    rewrite IH by (intros j Hj; apply H; lia).
    by replace (S k + n)%nat with (k + S n)%nat by lia.
Qed.

Lemma poll_loop_one b pid fuel k :
  poll_loop b pid (S fuel) k
  = match poll_once b pid k with
    | (Raise e, tr) => (Some (Raise e), tr)
    | (Ok (Some v), tr) => (Some (Ok v), tr)
    | (Ok None, tr) =>
        ((poll_loop b pid fuel (S k)).1, tr ++ Sleep 1 :: (poll_loop b pid fuel (S k)).2)
    end.
Proof.
  simpl. destruct (poll_once b pid k) as [[[v|]|e] tr]; try done.
  by destruct (poll_loop b pid fuel (S k)).
Qed.

(** The whole call when the job was accepted, the first [n] polls found
    nothing and the poll at moment [n] ends the loop with [r]. *)
Lemma generate_image_after b prompt pid n extra r tr :
  accepted b prompt pid →
  (∀ j, (j < n)%nat →
        output_missing pid (http_get b j (history_url b (JStr pid))) = true) →
  poll_loop b (JStr pid) 1 n = (Some r, tr) →
  generate_image b (S n + extra) prompt
  = (Some match r with Ok v => v | Raise _ => PyNone end,
     Post (prompt_url b) (JObj [("prompt", workflow prompt)])
       :: idle_turns (history_url b (JStr pid)) n ++ tr
       ++ match r with Ok _ => [] | Raise e => [LogError (ErrorGeneratingExn e)] end).
Proof.
  intros (resp & data & Hpost & Hst & Hjson & Hid) Hidle Hturn.
  unfold generate_image.
  rewrite (submit_accepted _ _ _ _ _ Hpost Hst Hjson Hid).
  replace (S n + extra)%nat with (n + (1 + extra))%nat by lia.
  rewrite poll_loop_prefix by (intros j Hj; apply Hidle; lia).
  change (0 + n)%nat with n.
  rewrite (poll_loop_mono _ _ 1 _ _ _ extra Hturn). simpl.
  destruct r as [v|e]; simpl; [by rewrite app_nil_r|].
  by rewrite <- app_assoc.
Qed.

Lemma poll_loop_ready_turn b pid n image_data :
  ready_at b pid n image_data →
  poll_loop b (JStr pid) 1 n
  = (Some (extract_image b n image_data).1,
     Get (history_url b (JStr pid)) :: (extract_image b n image_data).2).
Proof.
  intros (resp & ledger & entry & outs & node & images &
          Hget & Hst & Hjson & Hentry & Houts & H9 & Himages & Hdata).
  rewrite poll_loop_one.
  rewrite (poll_once_ready _ _ _ _ _ _ _ _ _ _ Hget Hst Hjson Hentry Houts H9 Himages Hdata).
  by destruct (extract_image b n image_data) as [[v|e] tr].
Qed.

Lemma cut_none (sep : ascii) (s : string) : has_char sep s = false → cut sep s = None.
Proof.
  induction s as [|c s IH]; simpl; [done|].
  rewrite (Ascii.eqb_sym sep c). destruct (Ascii.eqb c sep); [discriminate|].
  simpl. intros H. by rewrite IH.
Qed.

Lemma backend_of_accepted ledger other prompt :
  accepted (backend_of ledger other) prompt "abc".
Proof. eexists _, _. repeat split. Qed.

Lemma backend_of_ready ledger other k payload :
  ledger k = ledger_with "abc" payload →
  ready_at (backend_of ledger other) "abc" k payload.
Proof.
  intros H. unfold ready_at, ledger_with in *. simpl. rewrite H.
  eexists _, _, _, _, _, _. repeat split.
Qed.

Lemma no_post_app tr tr' : no_post tr → no_post tr' → no_post (tr ++ tr').
Proof. apply Forall_app_2. Qed.

Lemma extract_image_no_post b k image_data : no_post (extract_image b k image_data).2.
Proof.
  unfold extract_image. unfold_M.
  destruct image_data as [| | |s| |fields]; simpl; try by repeat constructor.
  - destruct (list_item _ _) as [piece|e]; simpl; [|constructor].
    destruct (b64decode piece); simpl; constructor.
  - destruct (assoc "filename" fields), (assoc "subfolder" fields); simpl;
      try by repeat constructor.
    destruct (http_get b k _) as [resp|e]; simpl; [|by repeat constructor].
    destruct (status resp =? 200); simpl; [|by repeat constructor].
    destruct (read_body resp); simpl; by repeat constructor.
Qed.

Lemma poll_once_no_post b pid k : no_post (poll_once b pid k).2.
Proof.
  unfold poll_once. unfold_M.
  destruct (http_get b k _) as [resp|e]; simpl; [|by repeat constructor].
  destruct (status resp =? 200); simpl; [|by repeat constructor].
  destruct (json_body resp) as [history_data|e]; simpl; [|by repeat constructor].
  destruct (py_in pid history_data) as [[]|e]; simpl; try by repeat constructor.
  destruct (py_getitem history_data pid) as [entry|e]; simpl; [|by repeat constructor].
  destruct (py_getitem entry _) as [output_data|e]; simpl; [|by repeat constructor].
  destruct (py_truthy output_data); simpl; [|by repeat constructor].
  destruct (py_in _ output_data) as [[]|e]; simpl; try by repeat constructor.
  destruct (py_getitem output_data _) as [node|e]; simpl; [|by repeat constructor].
  destruct (py_getitem node _) as [images|e]; simpl; [|by repeat constructor].
  destruct (py_getitem images _) as [image_data|e]; simpl; [|by repeat constructor].
  pose proof (extract_image_no_post b k image_data) as H.
  destruct (extract_image b k image_data) as [[v|e] tr]; simpl in *.
  - rewrite app_nil_r. by constructor.
  - by constructor.
Qed.

Lemma poll_loop_no_post b pid fuel : ∀ k, no_post (poll_loop b pid fuel k).2.
Proof.
  induction fuel as [|fuel IH]; intros k; [constructor|].
  rewrite poll_loop_one. pose proof (poll_once_no_post b pid k) as H.
  destruct (poll_once b pid k) as [[[v|]|e] tr]; simpl in *; try done.
  apply no_post_app; [done|]. constructor; [done | apply IH].
Qed.

(** X13: a submission answered with a status other than 200 ends the call
    at once: the error is logged with the status, [None] is returned, no
    history request is ever sent, and the [photo] command answers with its
    apology. *)
Theorem X13_rejected_submission (b : Backend) (fuel : nat) (prompt : string)
    (resp : response) :
  http_post b (prompt_url b) (JObj [("prompt", workflow prompt)]) = Ok resp →
  status resp ≠ 200 →
  generate_image b fuel prompt
  = (Some PyNone,
     [Post (prompt_url b) (JObj [("prompt", workflow prompt)]);
      LogError (ErrorGeneratingStatus (status resp))]) ∧
  photo b fuel prompt = Some [Send "Sorry, I couldn't generate an image at this time."].
Proof.
  intros Hpost Hst.
  assert (generate_image b fuel prompt
          = (Some PyNone,
             [Post (prompt_url b) (JObj [("prompt", workflow prompt)]);
              LogError (ErrorGeneratingStatus (status resp))])) as H.
  { unfold generate_image. by rewrite (submit_rejected _ _ _ Hpost Hst). }
  split; [done|]. unfold photo. by rewrite H.
Qed.

Lemma X13_witness :
  generate_image rejecting_backend 0 "a cat"
  = (Some PyNone,
     [Post (prompt_url rejecting_backend) (JObj [("prompt", workflow "a cat")]);
      LogError (ErrorGeneratingStatus 500)]) ∧
  photo rejecting_backend 0 "a cat"
  = Some [Send "Sorry, I couldn't generate an image at this time."].
Proof.
  apply (X13_rejected_submission rejecting_backend 0 "a cat"
           {| status := 500; json_body := Raise JSONDecodeError; read_body := Ok [] |}).
  - reflexivity.
  - discriminate.
Defined.

(** X14: a submission that cannot be sent, or whose 200 reply is not JSON
    or has no [prompt_id], ends the call at once with [None] after the
    exception is logged; no history request is sent. *)
Theorem X14_failed_submission (b : Backend) (fuel : nat) (prompt : string) (e : exn) :
  http_post b (prompt_url b) (JObj [("prompt", workflow prompt)]) = Raise e ∨
  (∃ resp,
     http_post b (prompt_url b) (JObj [("prompt", workflow prompt)]) = Ok resp ∧
     status resp = 200 ∧
     (json_body resp = Raise e ∨
      ∃ data, json_body resp = Ok data ∧
              py_getitem data (JStr "prompt_id") = Raise e)) →
  generate_image b fuel prompt
  = (Some PyNone,
     [Post (prompt_url b) (JObj [("prompt", workflow prompt)]);
      LogError (ErrorGeneratingExn e)]).
Proof.
  intros H. unfold generate_image, submit. unfold_M.
  destruct H as [->|(resp & -> & Hst & [Hjson|(data & Hjson & Hid)])]; [done| |].
  - rewrite Hst. simpl. by rewrite Hjson.
  - rewrite Hst. simpl. rewrite Hjson. simpl. by rewrite Hid.
Qed.

Lemma X14_witness :
  generate_image offline_backend 5 "a cat"
  = (Some PyNone,
     [Post (prompt_url offline_backend) (JObj [("prompt", workflow "a cat")]);
      LogError (ErrorGeneratingExn ClientError)]).
Proof.
  apply (X14_failed_submission offline_backend 5 "a cat" ClientError).
  left. reflexivity.
Defined.



(** X16: when the job was accepted, the first [n] history responses lack
    the output node and the response at moment [n] holds it, the call
    returns in turn [n + 1], after exactly [n] sleeps, with what the
    extraction of [outputs['9']['images'][0]] gives; an exception raised
    by the extraction is logged and turned into [None]. *)
Theorem X16_returns_when_ready (b : Backend) (prompt pid : string) (n extra : nat)
    (image_data : json) :
  accepted b prompt pid →
  (∀ j, (j < n)%nat →
        output_missing pid (http_get b j (history_url b (JStr pid))) = true) →
  ready_at b pid n image_data →
  generate_image b (S n + extra) prompt
  = (Some match (extract_image b n image_data).1 with
          | Ok v => v
          | Raise _ => PyNone
          end,
     Post (prompt_url b) (JObj [("prompt", workflow prompt)])
       :: idle_turns (history_url b (JStr pid)) n
       ++ Get (history_url b (JStr pid)) :: (extract_image b n image_data).2
       ++ match (extract_image b n image_data).1 with
          | Ok _ => []
          | Raise e => [LogError (ErrorGeneratingExn e)]
          end).
Proof.
  intros Hacc Hidle Hready.
  rewrite (generate_image_after b prompt pid n extra _ _ Hacc Hidle
             (poll_loop_ready_turn b pid n image_data Hready)).
  done.
Qed.

Lemma X16_witness :
  generate_image file_backend (S 2 + 5) "a cat"
  = (Some match (extract_image file_backend 2 file_reference).1 with
          | Ok v => v
          | Raise _ => PyNone
          end,
     Post (prompt_url file_backend) (JObj [("prompt", workflow "a cat")])
       :: idle_turns (history_url file_backend (JStr "abc")) 2
       ++ Get (history_url file_backend (JStr "abc"))
            :: (extract_image file_backend 2 file_reference).2
       ++ match (extract_image file_backend 2 file_reference).1 with
          | Ok _ => []
          | Raise e => [LogError (ErrorGeneratingExn e)]
          end).
Proof.
  apply (X16_returns_when_ready file_backend "a cat" "abc" 2 5 file_reference).
  - apply backend_of_accepted.
  - intros j Hj. destruct j as [|[|j]]; [reflexivity | reflexivity | lia].
  - apply backend_of_ready. reflexivity.
Defined.

(** X17: a history request that raises ends the call; the loop does not
    try again.  After [n] turns that found nothing, the failing request at
    moment [n] is the last one: the exception is logged and [None] is
    returned. *)
Theorem X17_failed_poll_is_final (b : Backend) (prompt pid : string) (n extra : nat)
    (e : exn) :
  accepted b prompt pid →
  (∀ j, (j < n)%nat →
        output_missing pid (http_get b j (history_url b (JStr pid))) = true) →
  http_get b n (history_url b (JStr pid)) = Raise e →
  generate_image b (S n + extra) prompt
  = (Some PyNone,
     Post (prompt_url b) (JObj [("prompt", workflow prompt)])
       :: idle_turns (history_url b (JStr pid)) n
       ++ [Get (history_url b (JStr pid)); LogError (ErrorGeneratingExn e)]).
Proof.
  intros Hacc Hidle Hget.
  rewrite (generate_image_after b prompt pid n extra (Raise e)
             [Get (history_url b (JStr pid))] Hacc Hidle); [done|].
  rewrite poll_loop_one. unfold poll_once. unfold_M. by rewrite Hget.
Qed.

Lemma X17_witness :
  generate_image flaky_backend (S 1 + 3) "a cat"
  = (Some PyNone,
     Post (prompt_url flaky_backend) (JObj [("prompt", workflow "a cat")])
       :: idle_turns (history_url flaky_backend (JStr "abc")) 1
       ++ [Get (history_url flaky_backend (JStr "abc"));
           LogError (ErrorGeneratingExn ClientError)]).
Proof.
  apply (X17_failed_poll_is_final flaky_backend "a cat" "abc" 1 3 ClientError).
  - eexists _, _. repeat split.
  - intros j Hj. destruct j as [|j]; [reflexivity | lia].
  - reflexivity.
Defined.

(** X18: an entry for the job that has no [outputs] field is not waited
    on: the lookup raises [KeyError], which is logged, and the call
    returns [None]. *)
Theorem X18_entry_without_outputs (b : Backend) (prompt pid : string) (n extra : nat)
    (resp : response) (ledger entry : list (string * json)) :
  accepted b prompt pid →
  (∀ j, (j < n)%nat →
        output_missing pid (http_get b j (history_url b (JStr pid))) = true) →
  http_get b n (history_url b (JStr pid)) = Ok resp → status resp = 200 →
  json_body resp = Ok (JObj ledger) →
  assoc pid ledger = Some (JObj entry) → assoc "outputs" entry = None →
  generate_image b (S n + extra) prompt
  = (Some PyNone,
     Post (prompt_url b) (JObj [("prompt", workflow prompt)])
       :: idle_turns (history_url b (JStr pid)) n
       ++ [Get (history_url b (JStr pid)); LogError (ErrorGeneratingExn KeyError)]).
Proof.
  intros Hacc Hidle Hget Hst Hjson Hentry Houts.
  rewrite (generate_image_after b prompt pid n extra (Raise KeyError)
             [Get (history_url b (JStr pid))] Hacc Hidle); [done|].
  rewrite poll_loop_one. unfold poll_once. unfold_M.
  rewrite Hget, Hst. simpl. rewrite Hjson. simpl. rewrite Hentry. simpl.
  by rewrite Houts.
Qed.

Lemma X18_witness :
  generate_image (backend_of (λ _, JObj [("abc", JObj [("status", JStr "running")])])
                    (Raise ClientError)) (S 0 + 2) "a cat"
  = (Some PyNone,
     Post "http://127.0.0.1:8188/prompt" (JObj [("prompt", workflow "a cat")])
       :: idle_turns "http://127.0.0.1:8188/history/abc" 0
       ++ [Get "http://127.0.0.1:8188/history/abc";
           LogError (ErrorGeneratingExn KeyError)]).
Proof.
  apply (X18_entry_without_outputs
           (backend_of (λ _, JObj [("abc", JObj [("status", JStr "running")])])
              (Raise ClientError))
           "a cat" "abc" 0 2
           {| status := 200;
              json_body := Ok (JObj [("abc", JObj [("status", JStr "running")])]);
              read_body := Raise ClientError |}
           [("abc", JObj [("status", JStr "running")])]
           [("status", JStr "running")]).
  - apply backend_of_accepted.
  - intros j Hj. lia.
  - reflexivity.
  - reflexivity.
  - reflexivity.
  - reflexivity.
  - reflexivity.
Defined.

(** X19: image data that is a string without a comma, such as bare base64
    text with no data-URI header, is not decoded: [split(",", 1)[1]]
    raises [IndexError], and the call logs it and returns [None] without a
    further request. *)
Theorem X19_string_without_comma (b : Backend) (prompt pid : string) (n extra : nat)
    (s : string) :
  accepted b prompt pid →
  (∀ j, (j < n)%nat →
        output_missing pid (http_get b j (history_url b (JStr pid))) = true) →
  ready_at b pid n (JStr s) → has_char ","%char s = false →
  extract_image b n (JStr s) = (Raise IndexError, []) ∧
  generate_image b (S n + extra) prompt
  = (Some PyNone,
     Post (prompt_url b) (JObj [("prompt", workflow prompt)])
       :: idle_turns (history_url b (JStr pid)) n
       ++ [Get (history_url b (JStr pid)); LogError (ErrorGeneratingExn IndexError)]).
Proof.
  intros Hacc Hidle Hready Hs.
  assert (extract_image b n (JStr s) = (Raise IndexError, [])) as He
    by (by rewrite extract_inline, cut_none).
  split; [done|].
  rewrite (generate_image_after b prompt pid n extra _ _ Hacc Hidle
             (poll_loop_ready_turn b pid n (JStr s) Hready)).
  by rewrite He.
Qed.

Lemma X19_witness :
  extract_image bare_backend 0 (JStr "AAAA") = (Raise IndexError, []) ∧
  generate_image bare_backend (S 0 + 0) "a cat"
  = (Some PyNone,
     Post (prompt_url bare_backend) (JObj [("prompt", workflow "a cat")])
       :: idle_turns (history_url bare_backend (JStr "abc")) 0
       ++ [Get (history_url bare_backend (JStr "abc"));
           LogError (ErrorGeneratingExn IndexError)]).
Proof.
  apply (X19_string_without_comma bare_backend "a cat" "abc" 0 0 "AAAA").
  - apply backend_of_accepted.
  - intros j Hj. lia.
  - apply backend_of_ready. reflexivity.
  - reflexivity.
Defined.

(** X20: every call submits the job exactly once, as its first action,
    with the workflow built from the prompt; whatever happens later, no
    second submission is sent. *)
Theorem X20_one_submission (b : Backend) (fuel : nat) (prompt : string) :
  ∃ tr,
    (generate_image b fuel prompt).2
    = Post (prompt_url b) (JObj [("prompt", workflow prompt)]) :: tr ∧
    no_post tr.
Proof.
  unfold generate_image, submit. unfold_M.
  destruct (http_post b _ _) as [resp|e]; simpl;
    [|eexists; split; [done | by repeat constructor]].
  destruct (status resp =? 200); simpl;
    [|eexists; split; [done | by repeat constructor]].
  destruct (json_body resp) as [data|e]; simpl;
    [|eexists; split; [done | by repeat constructor]].
  destruct (py_getitem data _) as [pid|e]; simpl;
    [|eexists; split; [done | by repeat constructor]].
  pose proof (poll_loop_no_post b pid fuel 0) as H.
  destruct (poll_loop b pid fuel 0) as [[[v|e]|] tr]; simpl in *;
    (eexists; split; [done|]); try done.
  apply no_post_app; [done | by repeat constructor].
Qed.



(** X22: a data URI with nothing after its comma decodes to zero bytes,
    and the [photo] command still sends them as a file: a [BytesIO]
    object counts as true even when it is empty. *)
Theorem X22_empty_image_is_sent (b : Backend) (prompt pid : string) (n extra : nat)
    (header : string) :
  accepted b prompt pid →
  (∀ j, (j < n)%nat →
        output_missing pid (http_get b j (history_url b (JStr pid))) = true) →
  ready_at b pid n (JStr (header +:+ ",")) → has_char ","%char header = false →
  photo b (S n + extra) prompt = Some [SendFile [] "generated_image.png"].
Proof.
  intros Hacc Hidle Hready Hh. unfold photo.
  rewrite (generate_image_after b prompt pid n extra _ _ Hacc Hidle
             (poll_loop_ready_turn b pid n _ Hready)).
  by rewrite extract_inline, cut_app.
Qed.

Lemma X22_witness :
  photo (backend_of (λ _, ledger_with "abc" (JStr ("data:image/png;base64" +:+ ",")))
           (Raise ClientError)) (S 0 + 0) "a cat"
  = Some [SendFile [] "generated_image.png"].
Proof.
  apply (X22_empty_image_is_sent
           (backend_of (λ _, ledger_with "abc" (JStr ("data:image/png;base64" +:+ ",")))
              (Raise ClientError))
           "a cat" "abc" 0 0 "data:image/png;base64").
  - apply backend_of_accepted.
  - intros j Hj. lia.
  - apply backend_of_ready. reflexivity.
  - reflexivity.
Defined.

(** ** list_models *)

Lemma model_names_strings items names :
  Forall2 (λ item name, py_getitem item (JStr "name") = Ok (JStr name)) items names →
  model_names items = Ok (map JStr names) ∧ str_items (map JStr names) = Ok names.
Proof.
  induction 1 as [|item name items names Hname _ [IH1 IH2]]; [done|].
  simpl. by rewrite Hname, IH1, IH2.
Qed.

Lemma model_names_inv items : ∀ found strs,
  model_names items = Ok found → str_items found = Ok strs →
  Forall2 (λ item name, py_getitem item (JStr "name") = Ok (JStr name)) items strs.
Proof.
  induction items as [|item items IH]; intros found strs; simpl.
  - intros [= <-] [= <-]. constructor.
  - destruct (py_getitem item (JStr "name")) as [name|e] eqn:Hname; [|discriminate].
    destruct (model_names items) as [rest|e]; [|discriminate].
    intros [= <-]. simpl. destruct name as [| | |s| |]; try discriminate.
    destruct (str_items rest) as [strs'|e] eqn:Hrest; [|discriminate].
    intros [= <-]. constructor; [done | by apply IH with rest].
Qed.


(** X24: on a 200 reply whose [models] list holds entries with string
    names, the answer is the names in the order listed, one per line,
    inside a code block under the heading; other fields of an entry are
    ignored. *)
Theorem X24_list_models_lists_names (api_url : string)
    (get : string → result response) (resp : response) (models : json)
    (items : list json) (names : list string) :
  get (api_url +:+ "/api/tags") = Ok resp → status resp = 200 →
  json_body resp = Ok models →
  py_getitem models (JStr "models") = Ok (JArr items) →
  Forall2 (λ item name, py_getitem item (JStr "name") = Ok (JStr name)) items names →
  list_models api_url get
  = [Send ("Available models:" +:+ newline +:+ "```" +:+ newline
             +:+ join newline names +:+ newline +:+ "```")].
Proof.
  intros Hget Hst Hjson Hmodels Hnames. unfold list_models, tags_url, model_list.
  rewrite Hget, Hst. simpl. rewrite Hjson, Hmodels. simpl.
  destruct (model_names_strings items names Hnames) as [-> ->]. done.
Qed.

Lemma X24_witness :
  list_models "http://localhost:11434" two_models
  = [Send ("Available models:" +:+ newline +:+ "```" +:+ newline
             +:+ join newline ["llama3.1"; "mistral"] +:+ newline +:+ "```")].
Proof.
  apply (X24_list_models_lists_names "http://localhost:11434" two_models
           {| status := 200;
              json_body := Ok (JObj [("models",
                JArr [JObj [("name", JStr "llama3.1"); ("size", JNum 4)];
                      JObj [("name", JStr "mistral")]])]);
              read_body := Raise ClientError |}
           (JObj [("models",
                JArr [JObj [("name", JStr "llama3.1"); ("size", JNum 4)];
                      JObj [("name", JStr "mistral")]])])
           [JObj [("name", JStr "llama3.1"); ("size", JNum 4)];
            JObj [("name", JStr "mistral")]]
           ["llama3.1"; "mistral"]).
  - reflexivity.
  - reflexivity.
  - reflexivity.
  - reflexivity.
  - repeat constructor.
Defined.

(** X25: one entry of the [models] list without a string [name] spoils
    the whole listing: no name is shown, the exception is logged and the
    answer is the general failure message. *)
Theorem X25_list_models_all_or_nothing (api_url : string)
    (get : string → result response) (resp : response) (models : json)
    (items : list json) (bad : json) :
  get (api_url +:+ "/api/tags") = Ok resp → status resp = 200 →
  json_body resp = Ok models →
  py_getitem models (JStr "models") = Ok (JArr items) →
  bad ∈ items → (∀ name, py_getitem bad (JStr "name") ≠ Ok (JStr name)) →
  ∃ e, list_models api_url get
       = [LogListing e;
          Send "An error occurred while fetching the model list. Please try again later."].
Proof.
  intros Hget Hst Hjson Hmodels Hbad Hname. unfold list_models, tags_url, model_list.
  rewrite Hget, Hst. simpl. rewrite Hjson, Hmodels. simpl.
  destruct (model_names items) as [found|e] eqn:Hfound; [|by eexists].
  destruct (str_items found) as [strs|e] eqn:Hstrs; [|by eexists].
  pose proof (model_names_inv items found strs Hfound Hstrs) as H.
  apply list_elem_of_lookup in Hbad as [i Hi].
  destruct (Forall2_lookup_l _ _ _ _ _ H Hi) as (name & _ & Hn).
  by destruct (Hname name).
Qed.

Lemma X25_witness :
  ∃ e, list_models "http://localhost:11434"
         (λ _, ok_json (JObj [("models",
            JArr [JObj [("name", JStr "llama3.1")]; JObj [("model", JStr "mistral")]])]))
       = [LogListing e;
          Send "An error occurred while fetching the model list. Please try again later."].
Proof.
  apply (X25_list_models_all_or_nothing "http://localhost:11434"
           (λ _, ok_json (JObj [("models",
              JArr [JObj [("name", JStr "llama3.1")]; JObj [("model", JStr "mistral")]])]))
           {| status := 200;
              json_body := Ok (JObj [("models",
                JArr [JObj [("name", JStr "llama3.1")]; JObj [("model", JStr "mistral")]])]);
              read_body := Raise ClientError |}
           (JObj [("models",
              JArr [JObj [("name", JStr "llama3.1")]; JObj [("model", JStr "mistral")]])])
           [JObj [("name", JStr "llama3.1")]; JObj [("model", JStr "mistral")]]
           (JObj [("model", JStr "mistral")])).
  - reflexivity.
  - reflexivity.
  - reflexivity.
  - reflexivity.
  - apply list_elem_of_lookup. exists 1%nat. reflexivity.
  - intros name. discriminate.
Defined.

(** * Failures of the image pipeline, through the whole call *)

(** The dict branch of the extraction for string values. *)
Lemma extract_file b k fields (filename subfolder : string) :
  assoc "filename" fields = Some (JStr filename) →
  assoc "subfolder" fields = Some (JStr subfolder) →
  let url := COMFYUI_API_URL b +:+ "/view?filename=" +:+ filename
               +:+ "&subfolder=" +:+ subfolder in
  extract_image b k (JObj fields)
  = match http_get b k url with
    | Ok resp =>
        if status resp =? 200 then
          match read_body resp with
          | Ok data => (Ok (BytesIO data), [Get url])
          | Raise e => (Raise e, [Get url])
          end
        else (Ok PyNone, [Get url; LogError (FailedToRetrieve (status resp))])
    | Raise e => (Raise e, [Get url])
    end.
Proof.
  intros Hf Hs url. unfold extract_image. rewrite Hf, Hs. unfold_M.
  change (view_url b (JStr filename) (JStr subfolder)) with url.
  destruct (http_get b k url) as [resp|e]; [|done].
  destruct (status resp =? 200); [|done].
  by destruct (read_body resp).
Qed.

Lemma extract_unrecognised b k image_data :
  (∀ s, image_data ≠ JStr s) →
  (∀ fields filename subfolder,
     image_data = JObj fields → assoc "filename" fields = Some filename →
     assoc "subfolder" fields = Some subfolder → False) →
  extract_image b k image_data
  = (Ok PyNone,
     [LogError match image_data with
               | JObj _ => UnexpectedFormat image_data
               | _ => UnexpectedType image_data
               end]).
Proof.
  intros Hstr Hdict. unfold extract_image. unfold_M.
  destruct image_data as [| | |s| |fields]; try done.
  - by destruct (Hstr s).
  - destruct (assoc "filename" fields) as [f|] eqn:Hf; [|done].
    destruct (assoc "subfolder" fields) as [s|] eqn:Hs; [|done].
    destruct (Hdict fields f s eq_refl Hf Hs).
Qed.

(** The whole call when the output node shows up at moment [n] and the
    extraction ends with [r] and the trace [tr]. *)
Lemma generate_image_extracted b prompt pid n extra image_data r tr :
  accepted b prompt pid →
  (∀ j, (j < n)%nat →
        output_missing pid (http_get b j (history_url b (JStr pid))) = true) →
  ready_at b pid n image_data →
  extract_image b n image_data = (r, tr) →
  generate_image b (S n + extra) prompt
  = (Some match r with Ok v => v | Raise _ => PyNone end,
     Post (prompt_url b) (JObj [("prompt", workflow prompt)])
       :: idle_turns (history_url b (JStr pid)) n
       ++ Get (history_url b (JStr pid)) :: tr
       ++ match r with Ok _ => [] | Raise e => [LogError (ErrorGeneratingExn e)] end).
Proof.
  intros Hacc Hidle Hready He.
  rewrite (generate_image_after b prompt pid n extra _ _ Hacc Hidle
             (poll_loop_ready_turn b pid n image_data Hready)).
  by rewrite He.
Qed.


Lemma flaky_accepted prompt : accepted flaky_backend prompt "abc".
Proof. eexists _, _. repeat split. Qed.


(** * The file reference, through the whole call *)

(** C6 as stated fails, in two ways.  The two strings are put into the
    URL as they are, so the image data [{filename: "a.png", subfolder:
    "x&subfolder=y"}] and [{filename: "a.png&subfolder=x", subfolder: "y"}]
    lead to one and the same request: nothing read from the request gives
    back the two fields of both.  And a retrieval that cannot reach the
    server ends the call with the same returned value and the same logged
    message as a history request that cannot reach it: nothing computed
    from what the call returns and logs names the first a failed retrieval
    and the second an unavailable backend. *)
Lemma C6_counterexample :
  (¬ ∃ read : list event → string * string,
       read (extract_image file_backend 0
               (JObj [("filename", JStr "a.png"); ("subfolder", JStr "x&subfolder=y")])).2
         = ("a.png", "x&subfolder=y") ∧
       read (extract_image file_backend 0
               (JObj [("filename", JStr "a.png&subfolder=x"); ("subfolder", JStr "y")])).2
         = ("a.png&subfolder=x", "y")) ∧
  (¬ ∃ classify : option py_value * list log_msg → FailureKind,
       classify (outcome unreachable_file_backend 1 "a cat") = RetrievalFailed ∧
       classify (outcome flaky_backend 2 "a cat") = BackendUnavailable).
Proof.
  split.
  - intros (read & H1 & H2).
    change (extract_image file_backend 0
              (JObj [("filename", JStr "a.png&subfolder=x"); ("subfolder", JStr "y")])).2
      with (extract_image file_backend 0
              (JObj [("filename", JStr "a.png"); ("subfolder", JStr "x&subfolder=y")])).2
      in H2.
    rewrite H1 in H2. discriminate.
  - intros (classify & H1 & H2).
    change (outcome flaky_backend 2 "a cat")
      with (outcome unreachable_file_backend 1 "a cat") in H2.
    rewrite H1 in H2. discriminate.
Qed.

(** C6, amended: for image data that is a dict whose [filename] and
    [subfolder] are strings, the code sends one GET to the text
    [{COMFYUI_API_URL}/view?filename={filename}&subfolder={subfolder}], the
    two strings put in as they are.  A response with status 200 and body
    [data] gives [BytesIO(data)]; any other status is logged as a failed
    retrieval with that status and gives [None]; a request that raises, or
    a body that cannot be read, raises out of the extraction.  Through the
    whole call, once the output node holds this image data: the bytes are
    returned; the other status ends in [None] after the failed-retrieval
    message; the raise ends in [None] after the general message with the
    exception. *)
Theorem C6_file_reference_is_fetched (b : Backend) (k : nat)
    (fields : list (string * json)) (filename subfolder : string) :
  assoc "filename" fields = Some (JStr filename) →
  assoc "subfolder" fields = Some (JStr subfolder) →
  let url := COMFYUI_API_URL b +:+ "/view?filename=" +:+ filename
               +:+ "&subfolder=" +:+ subfolder in
  (∀ resp data,
     http_get b k url = Ok resp → status resp = 200 → read_body resp = Ok data →
     extract_image b k (JObj fields) = (Ok (BytesIO data), [Get url])) ∧
  (∀ resp,
     http_get b k url = Ok resp → status resp ≠ 200 →
     extract_image b k (JObj fields)
     = (Ok PyNone, [Get url; LogError (FailedToRetrieve (status resp))])) ∧
  (∀ e,
     http_get b k url = Raise e ∨
     (∃ resp, http_get b k url = Ok resp ∧ status resp = 200 ∧ read_body resp = Raise e) →
     extract_image b k (JObj fields) = (Raise e, [Get url])) ∧
  (∀ prompt pid extra,
     accepted b prompt pid →
     (∀ j, (j < k)%nat →
           output_missing pid (http_get b j (history_url b (JStr pid))) = true) →
     ready_at b pid k (JObj fields) →
     let requests :=
       Post (prompt_url b) (JObj [("prompt", workflow prompt)])
         :: idle_turns (history_url b (JStr pid)) k
         ++ [Get (history_url b (JStr pid)); Get url] in
     (∀ resp data,
        http_get b k url = Ok resp → status resp = 200 → read_body resp = Ok data →
        generate_image b (S k + extra) prompt = (Some (BytesIO data), requests)) ∧
     (∀ resp,
        http_get b k url = Ok resp → status resp ≠ 200 →
        generate_image b (S k + extra) prompt
        = (Some PyNone, requests ++ [LogError (FailedToRetrieve (status resp))])) ∧
     (∀ e,
        http_get b k url = Raise e ∨
        (∃ resp, http_get b k url = Ok resp ∧ status resp = 200 ∧
                 read_body resp = Raise e) →
        generate_image b (S k + extra) prompt
        = (Some PyNone, requests ++ [LogError (ErrorGeneratingExn e)]))).
Proof.
  intros Hf Hs url.
  pose proof (extract_file b k fields filename subfolder Hf Hs) as He.
  fold url in He.
  assert (∀ resp data,
            http_get b k url = Ok resp → status resp = 200 → read_body resp = Ok data →
            extract_image b k (JObj fields) = (Ok (BytesIO data), [Get url])) as H200.
  { intros resp data Hget Hst Hread. by rewrite He, Hget, Hst, Hread. }
  assert (∀ resp,
            http_get b k url = Ok resp → status resp ≠ 200 →
            extract_image b k (JObj fields)
            = (Ok PyNone, [Get url; LogError (FailedToRetrieve (status resp))])) as Hst.
  { intros resp Hget Hne. apply Z.eqb_neq in Hne. by rewrite He, Hget, Hne. }
  assert (∀ e,
            http_get b k url = Raise e ∨
            (∃ resp, http_get b k url = Ok resp ∧ status resp = 200 ∧
                     read_body resp = Raise e) →
            extract_image b k (JObj fields) = (Raise e, [Get url])) as Hraise.
  { intros e [Hget|(resp & Hget & Hok & Hread)]; rewrite He, Hget; [done|].
    by rewrite Hok, Hread. }
  split; [done|]. split; [done|]. split; [done|].
  intros prompt pid extra Hacc Hidle Hready requests. split; [|split].
  - intros resp data Hget Hok Hread.
    rewrite (generate_image_extracted b prompt pid k extra _ _ _ Hacc Hidle Hready
               (H200 resp data Hget Hok Hread)).
    unfold requests. rewrite <- ?app_comm_cons, <- ?app_assoc. simpl.
    by rewrite ?app_nil_r.
  - intros resp Hget Hne.
    rewrite (generate_image_extracted b prompt pid k extra _ _ _ Hacc Hidle Hready
               (Hst resp Hget Hne)).
    unfold requests. rewrite <- ?app_comm_cons, <- ?app_assoc. simpl.
    by rewrite ?app_nil_r.
  - intros e Hfail.
    rewrite (generate_image_extracted b prompt pid k extra _ _ _ Hacc Hidle Hready
               (Hraise e Hfail)).
    unfold requests. rewrite <- ?app_comm_cons, <- ?app_assoc. simpl.
    by rewrite ?app_nil_r.
Qed.

Lemma C6_witness :
  let url := "http://127.0.0.1:8188/view?filename=a.png&subfolder=x" in
  let history := "http://127.0.0.1:8188/history/abc" in
  let submission :=
    Post "http://127.0.0.1:8188/prompt" (JObj [("prompt", workflow "a cat")]) in
  extract_image file_backend 2 file_reference = (Ok (BytesIO [137; 80; 78]), [Get url]) ∧
  extract_image missing_file_backend 0 file_reference
    = (Ok PyNone, [Get url; LogError (FailedToRetrieve 404)]) ∧
  extract_image unreachable_file_backend 0 file_reference
    = (Raise ClientError, [Get url]) ∧
  generate_image file_backend (S 2 + 0) "a cat"
    = (Some (BytesIO [137; 80; 78]),
       submission :: idle_turns history 2 ++ [Get history; Get url]) ∧
  generate_image missing_file_backend (S 0 + 0) "a cat"
    = (Some PyNone,
       (submission :: idle_turns history 0 ++ [Get history; Get url])
         ++ [LogError (FailedToRetrieve 404)]) ∧
  generate_image unreachable_file_backend (S 0 + 0) "a cat"
    = (Some PyNone,
       (submission :: idle_turns history 0 ++ [Get history; Get url])
         ++ [LogError (ErrorGeneratingExn ClientError)]).
Proof.
  assert (assoc "filename" [("filename", JStr "a.png"); ("subfolder", JStr "x");
                            ("type", JStr "output")] = Some (JStr "a.png")) as Hf
    by reflexivity.
  assert (assoc "subfolder" [("filename", JStr "a.png"); ("subfolder", JStr "x");
                             ("type", JStr "output")] = Some (JStr "x")) as Hs
    by reflexivity.
  assert (∀ j, (j < 2)%nat →
            output_missing "abc"
              (http_get file_backend j (history_url file_backend (JStr "abc"))) = true)
    as Htwo by (intros [|[|j]] Hj; [reflexivity | reflexivity | lia]).
  assert (∀ b : Backend, ∀ j, (j < 0)%nat →
            output_missing "abc" (http_get b j (history_url b (JStr "abc"))) = true)
    as Hnow by (intros b j Hj; lia).
  intros url history submission.
  split; [|split; [|split; [|split; [|split]]]].
  - apply (proj1 (C6_file_reference_is_fetched file_backend 2 _ "a.png" "x" Hf Hs)
             {| status := 200; json_body := Raise JSONDecodeError;
                read_body := Ok [137; 80; 78] |}); reflexivity.
  - apply (proj1 (proj2 (C6_file_reference_is_fetched missing_file_backend 0 _
                           "a.png" "x" Hf Hs))
             {| status := 404; json_body := Raise JSONDecodeError; read_body := Ok [] |});
      [reflexivity | discriminate].
  - apply (proj1 (proj2 (proj2 (C6_file_reference_is_fetched unreachable_file_backend 0 _
                                  "a.png" "x" Hf Hs))) ClientError).
    left. reflexivity.
  - destruct (proj2 (proj2 (proj2
                (C6_file_reference_is_fetched file_backend 2 _ "a.png" "x" Hf Hs)))
                "a cat" "abc" 0%nat (backend_of_accepted _ _ "a cat") Htwo
                (backend_of_ready _ _ 2%nat file_reference eq_refl)) as (Hbytes & _ & _).
    apply (Hbytes {| status := 200; json_body := Raise JSONDecodeError;
                     read_body := Ok [137; 80; 78] |}); reflexivity.
  - destruct (proj2 (proj2 (proj2
                (C6_file_reference_is_fetched missing_file_backend 0 _ "a.png" "x" Hf Hs)))
                "a cat" "abc" 0%nat (backend_of_accepted _ _ "a cat") (Hnow _)
                (backend_of_ready _ _ 0%nat file_reference eq_refl)) as (_ & Hstatus & _).
    apply (Hstatus {| status := 404; json_body := Raise JSONDecodeError;
                      read_body := Ok [] |}); [reflexivity | discriminate].
  - destruct (proj2 (proj2 (proj2
                (C6_file_reference_is_fetched unreachable_file_backend 0 _
                   "a.png" "x" Hf Hs)))
                "a cat" "abc" 0%nat (backend_of_accepted _ _ "a cat") (Hnow _)
                (backend_of_ready _ _ 0%nat file_reference eq_refl)) as (_ & _ & Hraise).
    apply (Hraise ClientError). left. reflexivity.
Defined.
